(** * The scoring script of the model-monitoring demo: [init] and [run]

    A shallow embedding of [deployment/src/score.py].  The script is glue
    between four libraries (json, pandas, mlflow, the monitoring collector):
    the libraries are the fields of a [Platform], the script's own control
    flow, its globals, the table objects it creates and the order of its
    external calls are modelled here, in a state-and-exception monad. *)

From Stdlib Require Import Floats.
From Stdlib Require Import Ascii String.
From stdpp Require Import base gmap strings list.

Local Open Scope string_scope.
Local Open Scope list_scope.
Local Set Warnings "-register-all".

(** ** Python values, exceptions *)

(** The exceptions the script can see.  [LibraryError] stands for whatever a
    collaborator raises of its own (an unreadable artifact, a rejected
    emission, an inference error). *)
Inductive exn :=
| TypeError
| KeyError (key : string)
| ValueError
| NameError (name : string)
| JSONDecodeError
| LibraryError (what : string).

Inductive result (A : Type) :=
| Ok (a : A)
| Raise (e : exn).
Arguments Ok {A} a.
Arguments Raise {A} e.

(** What [json.loads] produces: None, bool, int, float, str, list, dict.  A
    dict keeps its items in insertion order and holds each key once. *)
Inductive value :=
| VNone
| VBool (b : bool)
| VInt (z : Z)
| VFloat (x : float)
| VStr (s : string)
| VList (items : list value)
| VDict (items : list (string * value)).

Fixpoint dict_get (items : list (string * value)) (key : string) : option value :=
  match items with
  | [] => None
  | (k, v) :: rest => if decide (k = key) then Some v else dict_get rest key
  end.

(** [obj[key]] for a string key: a dict looks the key up (KeyError when it is
    absent); a list, a str or a scalar cannot be subscripted by a str. *)
Definition getitem (obj : value) (key : string) : result value :=
  match obj with
  | VDict items =>
      match dict_get items key with
      | Some v => Ok v
      | None => Raise (KeyError key)
      end
  | _ => Raise TypeError
  end.

(** ** Tables *)

(** A column label: a str for a table built from JSON objects, an int for one
    built from bare sequences. *)
Inductive label :=
| LStr (s : string)
| LInt (i : Z).

#[global] Instance label_eq_dec : EqDecision label.
Proof. solve_decision. Defined.

(** A [pandas.DataFrame] with a default (range) index: the number of rows and
    the columns in order, each with one cell per row. *)
Record DataFrame := mkFrame {
  nrows : nat;
  columns : list (label * list value)
}.

Definition labels (df : DataFrame) : list label := (columns df).*1.

Fixpoint column (cols : list (label * list value)) (key : label) : option (list value) :=
  match cols with
  | [] => None
  | (k, cells) :: rest => if decide (k = key) then Some cells else column rest key
  end.

(** Assigning a column: an existing label keeps its position and gets the new
    cells, a new label is appended after the last column. *)
Fixpoint set_column (key : label) (cells : list value) (cols : list (label * list value))
  : list (label * list value) :=
  match cols with
  | [] => [(key, cells)]
  | (k, old) :: rest =>
      if decide (k = key) then (k, cells) :: rest
      else (k, old) :: set_column key cells rest
  end.

(** [df[key] = vals] for a numeric sequence [vals].  pandas first makes sure the
    frame has an index: a frame with no rows takes the index of a non-empty
    [vals] and its existing columns are filled with NaN.  Otherwise the
    lengths must match (ValueError). *)
Definition setitem (df : DataFrame) (key : label) (vals : list float) : result DataFrame :=
  let cells := VFloat <$> vals in
  if decide (nrows df = 0 ∧ length vals ≠ 0) then
    Ok (mkFrame (length vals)
          (set_column key cells
             ((λ c, (c.1, replicate (length vals) (VFloat nan))) <$> columns df)))
  else if decide (length vals = nrows df) then
    Ok (mkFrame (nrows df) (set_column key cells (columns df)))
  else Raise ValueError.

Fixpoint select_columns (cols : list (label * list value)) (keys : list label)
  : result (list (label * list value)) :=
  match keys with
  | [] => Ok []
  | k :: rest =>
      match column cols k with
      | None => Raise (KeyError "column")
      | Some cells =>
          match select_columns cols rest with
          | Ok sel => Ok ((k, cells) :: sel)
          | Raise e => Raise e
          end
      end
  end.

(** [df[[k1, ..., kn]]]: a new frame with the listed columns, in the listed
    order; KeyError when one is missing. *)
Definition getitem_columns (df : DataFrame) (keys : list label) : result DataFrame :=
  match select_columns (columns df) keys with
  | Ok sel => Ok (mkFrame (nrows df) sel)
  | Raise e => Raise e
  end.

(** ** Collaborators' objects *)

(** The model handle: an object with a [predict] method, a function of the
    table it is given.  It returns a one-dimensional numeric array or raises. *)
Record Model := mkModel {
  predict : DataFrame → result (list float)
}.

(** A [Collector(name=...)]. *)
Record Collector := mkCollector {
  name : string
}.

(** The correlation context a collector returns: an opaque token. *)
Inductive CorrelationContext :=
| Ctx (id : N).

#[global] Instance ctx_eq_dec : EqDecision CorrelationContext.
Proof. solve_decision. Defined.

(** ** The process: globals, table objects, external calls *)

(** A table object is addressed by its position in the store, so that two
    names of one object ([output_df = input_df]) are one address. *)
Definition loc := nat.

Inductive Printed :=
| PCollector (c : Collector)
| PFrame (df : DataFrame)
| PList (l : list float).

(** The script's calls into the outside, in the order they happen.  A
    [EvCollect] records the collector, the table object it was given, what
    that object held at the time of the call, the context argument and the
    context returned. *)
Inductive Event :=
| EvLoadModel (path : string)
| EvNewCollector (cname : string)
| EvCollect (c : Collector) (obj : loc) (seen : DataFrame)
    (arg : option CorrelationContext) (returned : CorrelationContext)
| EvPrint (p : Printed).

(** The four module-level names of [init]'s [global] statement; [None] is a
    name not yet bound. *)
Record Globals := mkGlobals {
  g_model : option Model;
  g_inputs_collector : option Collector;
  g_outputs_collector : option Collector;
  g_inputs_outputs_collector : option Collector
}.

Definition no_globals : Globals := mkGlobals None None None None.

Record World := mkWorld {
  environ : gmap string string;
  globals : Globals;
  frames : list DataFrame;
  trace : list Event
}.

(** ** The libraries *)

(** [json.loads], the [pandas.DataFrame] constructor, [mlflow.sklearn.
    load_model], the [Collector] constructor and [Collector.collect].  The
    telemetry subsystem is stateful: what [collect] answers may depend on the
    calls made so far, which it is given.  A collector and a model read the
    table they are handed; neither changes it. *)
Class Platform := mkPlatform {
  json_loads : string → result value;
  pd_DataFrame : value → result DataFrame;
  mlflow_load_model : string → result Model;
  Collector_init : string → result unit;
  Collector_collect :
    list Event → Collector → DataFrame → option CorrelationContext → result CorrelationContext
}.

(** [posixpath.join a b]. *)
Definition sep : ascii := "/"%char.

Fixpoint last_char (s : string) : option ascii :=
  match s with
  | EmptyString => None
  | String c EmptyString => Some c
  | String _ rest => last_char rest
  end.

Definition startswith_sep (s : string) : bool :=
  match s with
  | String c _ => bool_decide (c = sep)
  | EmptyString => false
  end.

Definition endswith_sep (s : string) : bool :=
  bool_decide (last_char s = Some sep).

Definition os_path_join (a b : string) : string :=
  if startswith_sep b then b
  else if bool_decide (a = "") || endswith_sep a then a +:+ b
  else a +:+ String sep b.

(** ** The monad of the script: state and exceptions *)

Definition Py (A : Type) : Type := World → result A * World.

Definition ret {A} (a : A) : Py A := λ w, (Ok a, w).

Definition bind {A B} (m : Py A) (k : A → Py B) : Py B :=
  λ w, match m w with
       | (Ok a, w') => k a w'
       | (Raise e, w') => (Raise e, w')
       end.

Notation "x <~ m ;; k" := (bind m (λ x, k))
  (at level 63, m at next level, right associativity).
Notation "m ;;; k" := (bind m (λ _, k))
  (at level 63, right associativity).

Definition lift {A} (r : result A) : Py A := λ w, (r, w).

Definition log (ev : Event) : Py unit :=
  λ w, (Ok tt, mkWorld (environ w) (globals w) (frames w) (trace w ++ [ev])).

Definition set_globals (f : Globals → Globals) : Py unit :=
  λ w, (Ok tt, mkWorld (environ w) (f (globals w)) (frames w) (trace w)).

(** Reading a module-level name that is not bound raises NameError. *)
Definition read_global {A} (field : Globals → option A) (id : string) : Py A :=
  λ w, match field (globals w) with
       | Some x => (Ok x, w)
       | None => (Raise (NameError id), w)
       end.

Definition getenv (var : string) : Py (option string) :=
  λ w, (Ok (environ w !! var), w).

Definition alloc (df : DataFrame) : Py loc :=
  λ w, (Ok (length (frames w)),
        mkWorld (environ w) (globals w) (frames w ++ [df]) (trace w)).

(** A name bound to a table always holds a live address; the error branch is
    there for totality only. *)
Definition deref (obj : loc) : Py DataFrame :=
  λ w, match frames w !! obj with
       | Some df => (Ok df, w)
       | None => (Raise (LibraryError "no such object"), w)
       end.

Definition store (obj : loc) (df : DataFrame) : Py unit :=
  λ w, (Ok tt, mkWorld (environ w) (globals w) (<[obj := df]> (frames w)) (trace w)).

Definition print (p : Printed) : Py unit := log (EvPrint p).

Section Script.
Context `{P : Platform}.

(** [pd.DataFrame(data)]: a new table object. *)
Definition new_DataFrame (data : value) : Py loc :=
  df <~ lift (pd_DataFrame data) ;;
  alloc df.

(** The emission itself: the collector is handed the table as it is now and,
    unless it raises, the call is recorded with the context it returned. *)
Definition emit (c : Collector) (obj : loc) (df : DataFrame)
  (ctx : option CorrelationContext) : Py CorrelationContext :=
  λ w, match Collector_collect (trace w) c df ctx with
       | Ok returned => (log (EvCollect c obj df ctx returned) ;;; ret returned) w
       | Raise e => (Raise e, w)
       end.

(** [c.collect(obj)] and [c.collect(obj, ctx)]. *)
Definition collect (c : Collector) (obj : loc) (ctx : option CorrelationContext)
  : Py CorrelationContext :=
  df <~ deref obj ;;
  emit c obj df ctx.

(** [m.predict(obj)]. *)
Definition predict_on (m : Model) (obj : loc) : Py (list float) :=
  df <~ deref obj ;;
  lift (predict m df).

(** [obj[key] = vals]: the object itself is changed. *)
Definition setitem_at (obj : loc) (key : label) (vals : list float) : Py unit :=
  df <~ deref obj ;;
  df' <~ lift (setitem df key vals) ;;
  store obj df'.

(** [obj[[keys]]]: a new table object. *)
Definition getitem_columns_of (obj : loc) (keys : list label) : Py loc :=
  df <~ deref obj ;;
  view <~ lift (getitem_columns df keys) ;;
  alloc view.

(** [Collector(name=cname)]. *)
Definition new_Collector (cname : string) : Py Collector :=
  lift (Collector_init cname) ;;;
  log (EvNewCollector cname) ;;;
  ret (mkCollector cname).

Definition load_model (path : string) : Py Model :=
  log (EvLoadModel path) ;;;
  lift (mlflow_load_model path).

(** *** [init] *)

Definition init : Py unit :=
  base <~ getenv "AZUREML_MODEL_DIR" ;;
  model_path <~ lift (match base with
                      | Some dir => Ok (os_path_join dir "model")
                      | None => Raise TypeError
                      end) ;;
  model <~ load_model model_path ;;
  set_globals (λ g, mkGlobals (Some model) (g_inputs_collector g)
                      (g_outputs_collector g) (g_inputs_outputs_collector g)) ;;;
  inputs_collector <~ new_Collector "model_inputs" ;;
  set_globals (λ g, mkGlobals (g_model g) (Some inputs_collector)
                      (g_outputs_collector g) (g_inputs_outputs_collector g)) ;;;
  outputs_collector <~ new_Collector "model_outputs" ;;
  set_globals (λ g, mkGlobals (g_model g) (g_inputs_collector g)
                      (Some outputs_collector) (g_inputs_outputs_collector g)) ;;;
  inputs_outputs_collector <~ new_Collector "model_inputs_outputs" ;;
  set_globals (λ g, mkGlobals (g_model g) (g_inputs_collector g)
                      (g_outputs_collector g) (Some inputs_outputs_collector)) ;;;
  c <~ read_global g_inputs_collector "inputs_collector" ;;
  print (PCollector c).

(** *** [run] *)

Definition Predicted_Temperature : label := LStr "Predicted_Temperature".

Definition run (raw_data : string) : Py (list float) :=
  json_data <~ lift (json_loads raw_data) ;;
  scoring_data <~ lift (getitem json_data "data") ;;
  input_df <~ new_DataFrame scoring_data ;;
  shown <~ deref input_df ;;
  print (PFrame shown) ;;;
  inputs_collector <~ read_global g_inputs_collector "inputs_collector" ;;
  context <~ collect inputs_collector input_df None ;;
  model <~ read_global g_model "model" ;;
  predictions <~ predict_on model input_df ;;
  let output_df := input_df in
  setitem_at output_df Predicted_Temperature predictions ;;;
  outputs_collector <~ read_global g_outputs_collector "outputs_collector" ;;
  view <~ getitem_columns_of output_df [Predicted_Temperature] ;;
  collect outputs_collector view (Some context) ;;;
  inputs_outputs_collector <~
    read_global g_inputs_outputs_collector "inputs_outputs_collector" ;;
  collect inputs_outputs_collector output_df (Some context) ;;;
  let result := predictions in
  print (PList result) ;;;
  ret result.

(** *** The vocabulary of the statements *)

(** The request decodes to the feature table [df]: it is a JSON text, the
    value has a ['data'] item, and the table constructor accepts the item. *)
Definition well_formed (raw_data : string) (df : DataFrame) : Prop :=
  ∃ json_data scoring_data,
    json_loads raw_data = Ok json_data
    ∧ getitem json_data "data" = Ok scoring_data
    ∧ pd_DataFrame scoring_data = Ok df.

(** The request does not decode to a table: decoding, the ['data'] lookup or
    the table constructor raises [e]. *)
Definition malformed (raw_data : string) (e : exn) : Prop :=
  json_loads raw_data = Raise e
  ∨ (∃ json_data,
       json_loads raw_data = Ok json_data ∧ getitem json_data "data" = Raise e)
  ∨ (∃ json_data scoring_data,
       json_loads raw_data = Ok json_data
       ∧ getitem json_data "data" = Ok scoring_data
       ∧ pd_DataFrame scoring_data = Raise e).

(** The emitters accept every emission (the script has no handler for one
    that raises). *)
Definition telemetry_accepts : Prop :=
  ∀ history c df arg, ∃ ctx, Collector_collect history c df arg = Ok ctx.

End Script.

(** The state [init] leaves: the four names bound. *)
Definition initialised (w : World) (m : Model) (ci co cio : Collector) : Prop :=
  globals w = mkGlobals (Some m) (Some ci) (Some co) (Some cio).

(** One telemetry emission: the emitter, the table object and what it held,
    the context passed and the context returned. *)
Record Emission := mkEmission {
  emitter : Collector;
  table_obj : loc;
  table : DataFrame;
  context_arg : option CorrelationContext;
  context_out : CorrelationContext
}.

Definition emission_of (ev : Event) : option Emission :=
  match ev with
  | EvCollect c obj seen arg returned => Some (mkEmission c obj seen arg returned)
  | _ => None
  end.

Definition emissions (tr : list Event) : list Emission := omap emission_of tr.

Definition collector_of (ev : Event) : option string :=
  match ev with
  | EvNewCollector cname => Some cname
  | _ => None
  end.

(** The emitters created so far, by name. *)
Definition collectors_created (tr : list Event) : list string := omap collector_of tr.

Definition load_of (ev : Event) : option string :=
  match ev with
  | EvLoadModel path => Some path
  | _ => None
  end.

(** The artifact paths [load_model] was called with. *)
Definition loads_attempted (tr : list Event) : list string := omap load_of tr.

(** Every context that occurs in a trace, passed or returned. *)
Definition contexts (tr : list Event) : list CorrelationContext :=
  emissions tr ≫= λ em, context_out em :: option_list (context_arg em).


(** What no step of [run] touches: the four names, the environment, the
    emitters created and the artifacts loaded. *)
Definition keeps_setup {A} (m : Py A) : Prop :=
  ∀ w, globals (m w).2 = globals w
     ∧ environ (m w).2 = environ w
     ∧ collectors_created (trace (m w).2) = collectors_created (trace w)
     ∧ loads_attempted (trace (m w).2) = loads_attempted (trace w).

(** The parsed table after [df['Predicted_Temperature'] = preds], and the
    one-column table [df[['Predicted_Temperature']]] taken from it. *)
Definition scored (df : DataFrame) (preds : list float) : DataFrame :=
  mkFrame (nrows df) (set_column Predicted_Temperature (VFloat <$> preds) (columns df)).

Definition prediction_view (df : DataFrame) (preds : list float) : DataFrame :=
  mkFrame (nrows df) [(Predicted_Temperature, VFloat <$> preds)].




(** *** Requests that are not served to the end *)

(** The emissions one request can have made when it ends, in whichever way
    it ends, in a process whose names are bound as [g] and whose next free
    address is [input_df]: none; the inputs emission, made without a
    context; the inputs and the outputs emission; or all three.  The second
    and third carry the context the first returned, the third is given the
    table object of the first. *)
Inductive request_emissions (g : Globals) (input_df : loc) : list Emission → Prop :=
| no_emission :
    request_emissions g input_df []
| inputs_emitted ci df ctx :
    g_inputs_collector g = Some ci →
    request_emissions g input_df [mkEmission ci input_df df None ctx]
| outputs_emitted ci co df view ctx ctx2 :
    g_inputs_collector g = Some ci →
    g_outputs_collector g = Some co →
    labels view = [Predicted_Temperature] →
    request_emissions g input_df
      [mkEmission ci input_df df None ctx;
       mkEmission co (S input_df) view (Some ctx) ctx2]
| combined_emitted ci co cio df view df' ctx ctx2 ctx3 :
    g_inputs_collector g = Some ci →
    g_outputs_collector g = Some co →
    g_inputs_outputs_collector g = Some cio →
    labels view = [Predicted_Temperature] →
    request_emissions g input_df
      [mkEmission ci input_df df None ctx;
       mkEmission co (S input_df) view (Some ctx) ctx2;
       mkEmission cio input_df df' (Some ctx) ctx3].

Definition printed_of (ev : Event) : option Printed :=
  match ev with
  | EvPrint p => Some p
  | _ => None
  end.

(** What has been written to the standard output. *)
Definition printed (tr : list Event) : list Printed := omap printed_of tr.

Definition is_dict (v : value) : bool :=
  match v with
  | VDict _ => true
  | _ => false
  end.

(** How many of the four names are bound, when they are bound in the order
    of [init]'s assignments: [None] when they are not (a later name bound
    and an earlier one not). *)
Definition bound_in_order (g : Globals) : option nat :=
  match g_model g, g_inputs_collector g, g_outputs_collector g,
        g_inputs_outputs_collector g with
  | None, None, None, None => Some 0
  | Some _, None, None, None => Some 1
  | Some _, Some _, None, None => Some 2
  | Some _, Some _, Some _, None => Some 3
  | Some _, Some _, Some _, Some _ => Some 4
  | _, _, _, _ => None
  end.

(** ** A small platform to run the script on

    The theorems below hold for every [Platform].  To evaluate the script on
    concrete requests, this section gives one: a decoder for JSON texts, a
    table constructor for the shapes the scoring request names (a list of row
    objects, an object of columns), artifacts looked up in a given table of
    files, and a collector that numbers its contexts. *)

Module Demo.

Definition dquote : ascii := ascii_of_nat 34.
Definition backslash : ascii := ascii_of_nat 92.

(** A JSON text: [q s] is [s] between double quotes. *)
Definition q (s : string) : string := String dquote s +:+ String dquote "".

Definition is_ws (c : ascii) : bool :=
  bool_decide (c = " "%char) || bool_decide (c = ascii_of_nat 9)
  || bool_decide (c = ascii_of_nat 10) || bool_decide (c = ascii_of_nat 13).

Fixpoint skip_ws (s : string) : string :=
  match s with
  | String c rest => if is_ws c then skip_ws rest else s
  | EmptyString => s
  end.

Definition digit_of (c : ascii) : option Z :=
  let n := Z.of_nat (nat_of_ascii c) in
  if bool_decide (48 ≤ n ≤ 57)%Z then Some (n - 48)%Z else None.

(** [digits acc count s]: the longest run of digits at the head of [s], read
    onto [acc]; how many there were; the rest. *)
Fixpoint digits (acc : Z) (count : nat) (s : string) : Z * nat * string :=
  match s with
  | String c rest =>
      match digit_of c with
      | Some d => digits (10 * acc + d)%Z (S count) rest
      | None => (acc, count, s)
      end
  | EmptyString => (acc, count, s)
  end.

(** A decimal [m * 10^e] as a binary64 float.  With [m] and the power of ten
    both exact as floats, one multiplication or division rounds correctly;
    other literals are not decoded by this platform. *)
Definition float_of_decimal (m e : Z) : option float :=
  if bool_decide (m < 2 ^ 53 ∧ -15 ≤ e ≤ 15)%Z then
    let fm := PrimFloat.of_uint63 (Uint63.of_Z m) in
    let fp := PrimFloat.of_uint63 (Uint63.of_Z (10 ^ Z.abs e)) in
    Some (if bool_decide (0 ≤ e)%Z then PrimFloat.mul fm fp else PrimFloat.div fm fp)
  else None.

Definition exponent (s : string) : option (Z * string) :=
  match s with
  | String c rest =>
      if bool_decide (c = "e"%char) || bool_decide (c = "E"%char) then
        let '(neg, rest) :=
          match rest with
          | String "-"%char r => (true, r)
          | String "+"%char r => (false, r)
          | _ => (false, rest)
          end in
        match digits 0 0 rest with
        | (_, 0, _) => None
        | (e, _, rest) => Some (if neg : bool then (- e)%Z else e, rest)
        end
      else Some (0%Z, s)
  | EmptyString => Some (0%Z, s)
  end.

(** A JSON number: an int when it has neither fraction nor exponent, a float
    otherwise. *)
Definition number (s : string) : option (value * string) :=
  let '(neg, s) :=
    match s with
    | String "-"%char r => (true, r)
    | _ => (false, s)
    end in
  match digits 0 0 s with
  | (_, 0, _) => None
  | (ipart, n, rest) =>
      if bool_decide (1 < n) && bool_decide (String.get 0 s = Some "0"%char) then None
      else
        match rest with
        | String "."%char frac =>
            match digits ipart 0 frac with
            | (_, 0, _) => None
            | (m, k, rest) =>
                match exponent rest with
                | None => None
                | Some (e, rest) =>
                    x ← float_of_decimal m (e - Z.of_nat k);
                    Some (VFloat (if neg : bool then PrimFloat.opp x else x), rest)
                end
            end
        | String c _ =>
            if bool_decide (c = "e"%char) || bool_decide (c = "E"%char) then
              match exponent rest with
              | None => None
              | Some (e, rest) =>
                  x ← float_of_decimal ipart e;
                  Some (VFloat (if neg : bool then PrimFloat.opp x else x), rest)
              end
            else Some (VInt (if neg : bool then - ipart else ipart), rest)
        | EmptyString => Some (VInt (if neg : bool then - ipart else ipart), rest)
        end
  end.

(** The characters of a JSON string up to its closing quote.  The escapes of
    one character are decoded; a [\u] escape is not decoded by this platform. *)
Fixpoint chars (s : string) : option (string * string) :=
  match s with
  | EmptyString => None
  | String c rest =>
      if bool_decide (c = dquote) then Some (EmptyString, rest)
      else if bool_decide (c = backslash) then
        match rest with
        | String e rest' =>
            c' ← (if bool_decide (e = dquote) then Some dquote
                  else if bool_decide (e = backslash) then Some backslash
                  else if bool_decide (e = "/"%char) then Some "/"%char
                  else if bool_decide (e = "n"%char) then Some (ascii_of_nat 10)
                  else if bool_decide (e = "t"%char) then Some (ascii_of_nat 9)
                  else if bool_decide (e = "r"%char) then Some (ascii_of_nat 13)
                  else if bool_decide (e = "b"%char) then Some (ascii_of_nat 8)
                  else if bool_decide (e = "f"%char) then Some (ascii_of_nat 12)
                  else None);
            '(str, after) ← chars rest';
            Some (String c' str, after)
        | EmptyString => None
        end
      else if bool_decide (nat_of_ascii c < 32) then None
      else '(str, after) ← chars rest; Some (String c str, after)
  end.

Fixpoint expect (word s : string) : option string :=
  match word, s with
  | EmptyString, _ => Some s
  | String a word', String b s' => if bool_decide (a = b) then expect word' s' else None
  | _, EmptyString => None
  end.

(** A repeated key keeps its first position and takes the last value. *)
Fixpoint dict_set (items : list (string * value)) (key : string) (v : value)
  : list (string * value) :=
  match items with
  | [] => [(key, v)]
  | (k, old) :: rest =>
      if decide (k = key) then (k, v) :: rest else (k, old) :: dict_set rest key v
  end.

Definition dict_of (pairs : list (string * value)) : list (string * value) :=
  foldl (λ d kv, dict_set d kv.1 kv.2) [] pairs.

(** Recursive descent; [fuel] bounds the number of nested calls, and the
    length of the text is always enough. *)
Fixpoint decode (fuel : nat) (s : string) : option (value * string) :=
  match fuel with
  | 0 => None
  | S fuel =>
      match skip_ws s with
      | EmptyString => None
      | String c rest =>
          if bool_decide (c = "n"%char) then r ← expect "ull" rest; Some (VNone, r)
          else if bool_decide (c = "t"%char) then r ← expect "rue" rest; Some (VBool true, r)
          else if bool_decide (c = "f"%char) then r ← expect "alse" rest; Some (VBool false, r)
          else if bool_decide (c = dquote) then '(str, r) ← chars rest; Some (VStr str, r)
          else if bool_decide (c = "["%char) then
            match skip_ws rest with
            | String "]"%char r => Some (VList [], r)
            | _ => '(items, r) ← elements fuel rest; Some (VList items, r)
            end
          else if bool_decide (c = "{"%char) then
            match skip_ws rest with
            | String "}"%char r => Some (VDict [], r)
            | _ => '(pairs, r) ← members fuel rest; Some (VDict (dict_of pairs), r)
            end
          else number (String c rest)
      end
  end
with elements (fuel : nat) (s : string) : option (list value * string) :=
  match fuel with
  | 0 => None
  | S fuel =>
      '(v, r) ← decode fuel s;
      match skip_ws r with
      | String ","%char r' => '(vs, r'') ← elements fuel r'; Some (v :: vs, r'')
      | String "]"%char r' => Some ([v], r')
      | _ => None
      end
  end
with members (fuel : nat) (s : string) : option (list (string * value) * string) :=
  match fuel with
  | 0 => None
  | S fuel =>
      match skip_ws s with
      | String c r0 =>
          if bool_decide (c = dquote) then
            '(key, r1) ← chars r0;
            match skip_ws r1 with
            | String ":"%char r2 =>
                '(v, r3) ← decode fuel r2;
                match skip_ws r3 with
                | String ","%char r4 => '(kvs, r5) ← members fuel r4; Some ((key, v) :: kvs, r5)
                | String "}"%char r4 => Some ([(key, v)], r4)
                | _ => None
                end
            | _ => None
            end
          else None
      | EmptyString => None
      end
  end.

(** The whole text must be one value, white space apart. *)
Definition loads (s : string) : result value :=
  match decode (S (String.length s)) s with
  | Some (v, rest) =>
      match skip_ws rest with
      | EmptyString => Ok v
      | _ => Raise JSONDecodeError
      end
  | None => Raise JSONDecodeError
  end.

(** The table of a list of row objects: the labels are the keys in order of
    first appearance, a key a row does not have is NaN in that row. *)
Definition row_items (row : value) : option (list (string * value)) :=
  match row with
  | VDict items => Some items
  | _ => None
  end.

Fixpoint add_keys (seen : list string) (keys : list string) : list string :=
  match keys with
  | [] => seen
  | k :: rest => add_keys (if decide (k ∈ seen) then seen else seen ++ [k]) rest
  end.

Definition cell (key : string) (items : list (string * value)) : value :=
  default (VFloat nan) (dict_get items key).

Definition frame_of_rows (rows : list (list (string * value))) : DataFrame :=
  let keys := foldl (λ seen items, add_keys seen items.*1) [] rows in
  mkFrame (length rows) ((λ k, (LStr k, cell k <$> rows)) <$> keys).

(** The table of an object of columns: every value is a list, all of one
    length. *)
Definition column_cells (v : value) : option (list value) :=
  match v with
  | VList cells => Some cells
  | _ => None
  end.

Definition frame_of_columns (cols : list (string * list value)) : result DataFrame :=
  match cols with
  | [] => Ok (mkFrame 0 [])
  | (_, first) :: _ =>
      if bool_decide (Forall (λ c, length c.2 = length first) cols)
      then Ok (mkFrame (length first) ((λ c, (LStr c.1, c.2)) <$> cols))
      else Raise ValueError
  end.

(** [pandas.DataFrame(data)] on decoded JSON: None is the empty frame, a
    scalar or a str is refused with ValueError.  Shapes other than rows and
    columns are outside this platform. *)
Definition frame_of_value (data : value) : result DataFrame :=
  match data with
  | VNone => Ok (mkFrame 0 [])
  | VBool _ | VInt _ | VFloat _ | VStr _ => Raise ValueError
  | VList rows =>
      match mapM row_items rows with
      | Some rs => Ok (frame_of_rows rs)
      | None => Raise (LibraryError "shape outside this platform")
      end
  | VDict cols =>
      match mapM (λ c, cells ← column_cells c.2; Some (c.1, cells)) cols with
      | Some cs => frame_of_columns cs
      | None => Raise (LibraryError "shape outside this platform")
      end
  end.

(** A collector that numbers its contexts: an emission without a context gets
    the number after the largest one seen so far, an emission with a context
    returns it. *)
Definition ctx_id (c : CorrelationContext) : N :=
  match c with
  | Ctx n => n
  end.

Definition next_id (history : list Event) : N :=
  N.succ (foldr N.max 0%N (ctx_id <$> contexts history)).

Definition numbering_collect (history : list Event) (c : Collector) (df : DataFrame)
  (arg : option CorrelationContext) : result CorrelationContext :=
  match arg with
  | Some ctx => Ok ctx
  | None => Ok (Ctx (next_id history))
  end.

(** A collector whose channel [refused] rejects every emission. *)
Definition rejecting_collect (refused : string) (history : list Event) (c : Collector)
  (df : DataFrame) (arg : option CorrelationContext) : result CorrelationContext :=
  if decide (name c = refused) then Raise (LibraryError "emission rejected")
  else numbering_collect history c df arg.

(** Artifacts by path. *)
Definition files (fs : list (string * Model)) (path : string) : result Model :=
  match list_find (λ f, f.1 = path) fs with
  | Some (_, (_, m)) => Ok m
  | None => Raise (LibraryError "no such artifact")
  end.

Definition platform (fs : list (string * Model)) : Platform :=
  mkPlatform loads frame_of_value (files fs) (λ _, Ok tt) numbering_collect.

(** A platform on which the channel [refused] rejects every emission. *)
Definition platform_rejecting (refused : string) (fs : list (string * Model)) : Platform :=
  mkPlatform loads frame_of_value (files fs) (λ _, Ok tt) (rejecting_collect refused).

(** A platform on which the emitter named [refused] cannot be created. *)
Definition platform_refusing (refused : string) (fs : list (string * Model)) : Platform :=
  mkPlatform loads frame_of_value (files fs)
    (λ cname, if decide (cname = refused) then Raise (LibraryError "no such channel")
              else Ok tt)
    numbering_collect.

(** A model that predicts [feature_a + feature_b] for every row. *)
Definition as_float (v : value) : result float :=
  match v with
  | VFloat x => Ok x
  | _ => Raise TypeError
  end.

Fixpoint add_cells (a b : list value) : result (list float) :=
  match a, b with
  | [], [] => Ok []
  | x :: a', y :: b' =>
      match as_float x, as_float y, add_cells a' b' with
      | Ok fx, Ok fy, Ok rest => Ok (PrimFloat.add fx fy :: rest)
      | Raise e, _, _ | _, Raise e, _ | _, _, Raise e => Raise e
      end
  | _, _ => Raise ValueError
  end.

Definition sum_model : Model :=
  mkModel (λ df,
    match column (columns df) (LStr "feature_a"), column (columns df) (LStr "feature_b") with
    | Some a, Some b => add_cells a b
    | _, _ => Raise (KeyError "feature")
    end).

(** A model that predicts 0.5 for every row, whatever its features. *)
Definition constant_model : Model :=
  mkModel (λ df, Ok (replicate (nrows df) 0.5%float)).

(** A model whose inference fails. *)
Definition failing_model : Model :=
  mkModel (λ df, Raise (LibraryError "inference failed")).

(** A model that answers with one prediction, whatever the table. *)
Definition one_prediction_model : Model :=
  mkModel (λ df, Ok [0.5%float]).

(** A model that answers with two predictions, whatever the table. *)
Definition two_predictions_model : Model :=
  mkModel (λ df, Ok [0.5%float; 1.5%float]).

Definition model_dir : string := "/var/azureml-app/azureml-models/demo/1".

Definition fs_sum : list (string * Model) := [(model_dir +:+ "/model", sum_model)].

Definition fs_constant : list (string * Model) := [(model_dir +:+ "/model", constant_model)].

Definition fs_failing : list (string * Model) := [(model_dir +:+ "/model", failing_model)].

Definition fs_one_prediction : list (string * Model) :=
  [(model_dir +:+ "/model", one_prediction_model)].

Definition fs_two_predictions : list (string * Model) :=
  [(model_dir +:+ "/model", two_predictions_model)].

(** A process just started, with the model directory in its environment. *)
Definition started : World :=
  mkWorld {[ "AZUREML_MODEL_DIR" := model_dir ]} no_globals [] [].

(** A process just started with no model directory in its environment. *)
Definition started_without_dir : World :=
  mkWorld ∅ no_globals [] [].

(** The same process after [init], on the platform with the files [fs]. *)
Definition ready (fs : list (string * Model)) : World :=
  (init (P := platform fs) started).2.

(** The process after [init] on a platform where the emitter or the channel
    [refused] fails. *)
Definition after_init_refusing (refused : string) (fs : list (string * Model)) : World :=
  (init (P := platform_refusing refused fs) started).2.

Definition ready_rejecting (refused : string) (fs : list (string * Model)) : World :=
  (init (P := platform_rejecting refused fs) started).2.

Definition request_two_rows : string :=
  "{" +:+ q "data" +:+ ": [{" +:+ q "feature_a" +:+ ": 1.0, " +:+ q "feature_b"
  +:+ ": 2.0}, {" +:+ q "feature_a" +:+ ": 3.0, " +:+ q "feature_b" +:+ ": 4.0}]}".

Definition rows_two_rows : value :=
  VList [VDict [("feature_a", VFloat 1); ("feature_b", VFloat 2)];
         VDict [("feature_a", VFloat 3); ("feature_b", VFloat 4)]].

Definition value_two_rows : value := VDict [("data", rows_two_rows)].

Definition table_two_rows : DataFrame :=
  mkFrame 2 [(LStr "feature_a", [VFloat 1; VFloat 3]);
             (LStr "feature_b", [VFloat 2; VFloat 4])].

Definition request_no_rows : string :=
  "{" +:+ q "data" +:+ ": {" +:+ q "feature_a" +:+ ": []}}".

Definition table_no_rows : DataFrame := mkFrame 0 [(LStr "feature_a", [])].

Definition request_a_list : string := "[1, 2]".

Definition request_not_a_table : string :=
  "{" +:+ q "data" +:+ ": " +:+ q "not-a-table" +:+ "}".

Definition request_without_data : string :=
  "{" +:+ q "rows" +:+ ": []}".

Definition request_with_prediction_column : string :=
  "{" +:+ q "data" +:+ ": [{" +:+ q "Predicted_Temperature" +:+ ": 20.0, "
  +:+ q "feature_a" +:+ ": 1.0}]}".

Definition table_with_prediction_column : DataFrame :=
  mkFrame 1 [(LStr "Predicted_Temperature", [VFloat 20]); (LStr "feature_a", [VFloat 1])].

End Demo.

(** * Properties *)

(** ** Tables *)

Lemma column_set_column key cells cols :
  column (set_column key cells cols) key = Some cells.
Proof.
  induction cols as [|[k old] rest IH]; simpl.
  - by rewrite decide_True.
  - destruct (decide (k = key)) as [->|Hne]; simpl.
    + by rewrite decide_True.
    + by rewrite decide_False.
Qed.

Lemma set_column_fresh key cells cols :
  key ∉ cols.*1 → set_column key cells cols = cols ++ [(key, cells)].
Proof.
  induction cols as [|[k old] rest IH]; simpl; [done|].
  intros Hnotin. apply not_elem_of_cons in Hnotin as [Hne Hrest].
  rewrite decide_False by congruence. by rewrite IH.
Qed.

Lemma set_column_labels key cells cols : key ∈ (set_column key cells cols).*1.
Proof.
  induction cols as [|[k old] rest IH]; simpl; [constructor|].
  destruct (decide (k = key)) as [->|Hne]; simpl; [constructor|].
  by constructor.
Qed.

Lemma setitem_one_per_row df key vals :
  length vals = nrows df →
  setitem df key vals = Ok (mkFrame (nrows df) (set_column key (VFloat <$> vals) (columns df))).
Proof.
  intros Hlen. unfold setitem.
  rewrite decide_False by lia. by rewrite decide_True.
Qed.

Lemma select_written_column key cells cols n :
  getitem_columns (mkFrame n (set_column key cells cols)) [key] = Ok (mkFrame n [(key, cells)]).
Proof. unfold getitem_columns. simpl. by rewrite column_set_column. Qed.

Lemma setitem_view df key vals df' :
  setitem df key vals = Ok df' →
  getitem_columns df' [key] = Ok (mkFrame (nrows df') [(key, VFloat <$> vals)]).
Proof.
  unfold setitem. repeat case_decide; intros [= <-]; apply select_written_column.
Qed.

(** ** Paths *)







(** ** Traces *)

Lemma emissions_app tr1 tr2 : emissions (tr1 ++ tr2) = emissions tr1 ++ emissions tr2.
Proof. apply omap_app. Qed.


Ltac unfold_run :=
  unfold run, bind, lift, new_DataFrame, bind, lift, alloc, deref, print, log,
    read_global, collect, emit, predict_on, setitem_at, getitem_columns_of, store, ret,
    bind, deref, lift, log, alloc.

Ltac step := cbn -[lookup insert setitem getitem_columns].

Section Steps.
Context `{P : Platform}.

(** ** The steps of [run] *)

Lemma keeps_setup_bind {A B} (m : Py A) (k : A → Py B) :
  keeps_setup m → (∀ a, keeps_setup (k a)) → keeps_setup (bind m k).
Proof.
  intros Hm Hk w. unfold bind. specialize (Hm w).
  destruct (m w) as [[a|e] w1]; simpl in *; [|done].
  destruct (Hk a w1) as (-> & -> & -> & ->). done.
Qed.

Lemma keeps_setup_lift {A} (r : result A) : keeps_setup (lift r).
Proof. done. Qed.

Lemma keeps_setup_ret {A} (a : A) : keeps_setup (ret a).
Proof. done. Qed.

Lemma keeps_setup_alloc df : keeps_setup (alloc df).
Proof. done. Qed.

Lemma keeps_setup_store obj df : keeps_setup (store obj df).
Proof. done. Qed.

Lemma keeps_setup_deref obj : keeps_setup (deref obj).
Proof. intros w. unfold deref. by destruct (frames w !! obj). Qed.

Lemma keeps_setup_read_global {A} (field : Globals → option A) id :
  keeps_setup (read_global field id).
Proof. intros w. unfold read_global. by destruct (field (globals w)). Qed.

Lemma keeps_setup_print p : keeps_setup (print p).
Proof.
  intros w. unfold print, log, collectors_created, loads_attempted. simpl.
  rewrite !omap_app. simpl. by rewrite !app_nil_r.
Qed.

Lemma keeps_setup_emit c obj df arg : keeps_setup (emit c obj df arg).
Proof.
  intros w. unfold emit. destruct (Collector_collect (trace w) c df arg); [|done].
  unfold bind, log, ret, collectors_created, loads_attempted. simpl.
  rewrite !omap_app. simpl. by rewrite !app_nil_r.
Qed.

Create HintDb setup.
#[local] Hint Resolve keeps_setup_lift keeps_setup_ret keeps_setup_alloc keeps_setup_store
  keeps_setup_deref keeps_setup_read_global keeps_setup_print keeps_setup_emit : setup.

(** A request binds no name, changes no environment variable, creates no
    emitter and loads no artifact, whatever it holds and however it ends. *)
Lemma keeps_setup_run raw : keeps_setup (run raw).
Proof.
  unfold run, new_DataFrame, collect, predict_on, setitem_at, getitem_columns_of.
  repeat (apply keeps_setup_bind; [|intros ?]); auto with setup.
Qed.

(** A request that does not decode to a table raises and changes nothing. *)
Lemma run_malformed raw e w : malformed raw e → run raw w = (Raise e, w).
Proof.
  unfold run, bind, lift, new_DataFrame, bind, lift.
  intros [Hj | [(j & Hj & Hdata) | (j & data & Hj & Hdata & Hdf)]].
  - by rewrite Hj.
  - by rewrite Hj, Hdata.
  - by rewrite Hj, Hdata, Hdf.
Qed.

(** The whole of a served request: the result and the world it leaves. *)
Lemma run_served raw df m ci co cio preds df' w :
  well_formed raw df →
  initialised w m ci co cio →
  predict m df = Ok preds →
  setitem df Predicted_Temperature preds = Ok df' →
  telemetry_accepts →
  ∃ ctx ctx2 ctx3,
    Collector_collect (trace w ++ [EvPrint (PFrame df)]) ci df None = Ok ctx
    ∧ run raw w =
      (Ok preds,
       mkWorld (environ w) (globals w)
         (frames w ++ [df'; mkFrame (nrows df') [(Predicted_Temperature, VFloat <$> preds)]])
         (trace w ++
            [EvPrint (PFrame df);
             EvCollect ci (length (frames w)) df None ctx;
             EvCollect co (S (length (frames w)))
               (mkFrame (nrows df') [(Predicted_Temperature, VFloat <$> preds)])
               (Some ctx) ctx2;
             EvCollect cio (length (frames w)) df' (Some ctx) ctx3;
             EvPrint (PList preds)])).
Proof.
  intros (j & data & Hj & Hdata & Hdf) Hinit Hpred Hset Hacc.
  pose proof (setitem_view _ _ _ _ Hset) as Hview.
  destruct w as [env g fr tr]. unfold initialised in Hinit. simpl in *. subst g.
  set (view := mkFrame (nrows df') [(Predicted_Temperature, VFloat <$> preds)]) in *.
  destruct (Hacc (tr ++ [EvPrint (PFrame df)]) ci df None) as [ctx Hc1].
  destruct (Hacc (tr ++ [EvPrint (PFrame df); EvCollect ci (length fr) df None ctx]) co
              view (Some ctx)) as [ctx2 Hc2].
  destruct (Hacc (tr ++ [EvPrint (PFrame df); EvCollect ci (length fr) df None ctx;
                         EvCollect co (S (length fr)) view (Some ctx) ctx2])
              cio df' (Some ctx)) as [ctx3 Hc3].
  exists ctx, ctx2, ctx3. split; [done|].
  assert (Hlook : ∀ (x : DataFrame) rest, (fr ++ x :: rest) !! length fr = Some x).
  { intros. by apply list_lookup_middle. }
  assert (Hlook2 : ∀ (x y : DataFrame), (fr ++ [x; y]) !! S (length fr) = Some y).
  { intros. rewrite lookup_app_r by lia. by replace (S (length fr) - length fr) with 1 by lia. }
  assert (Hins : ∀ (x y : DataFrame) rest, <[length fr := y]> (fr ++ x :: rest) = fr ++ y :: rest).
  { intros. rewrite insert_app_r_alt by lia. by rewrite Nat.sub_diag. }
  unfold_run. rewrite Hj, Hdata, Hdf.
  repeat (step;
          first [ rewrite Hlook | rewrite Hlook2 | rewrite Hins
                | rewrite Hc1 | rewrite Hc2 | rewrite Hc3 | rewrite Hpred
                | rewrite Hset | rewrite Hview
                | rewrite <- app_assoc
                | rewrite length_app, Nat.add_1_r ]).
  reflexivity.
Qed.

(** The same with one prediction per row: the assignment goes through. *)
Lemma run_ok raw df m ci co cio preds w :
  well_formed raw df →
  initialised w m ci co cio →
  predict m df = Ok preds →
  length preds = nrows df →
  telemetry_accepts →
  ∃ ctx ctx2 ctx3,
    Collector_collect (trace w ++ [EvPrint (PFrame df)]) ci df None = Ok ctx
    ∧ run raw w =
      (Ok preds,
       mkWorld (environ w) (globals w)
         (frames w ++ [scored df preds; prediction_view df preds])
         (trace w ++
            [EvPrint (PFrame df);
             EvCollect ci (length (frames w)) df None ctx;
             EvCollect co (S (length (frames w))) (prediction_view df preds) (Some ctx) ctx2;
             EvCollect cio (length (frames w)) (scored df preds) (Some ctx) ctx3;
             EvPrint (PList preds)])).
Proof.
  intros Hwf Hinit Hpred Hlen Hacc.
  apply (run_served raw df m ci co cio preds (scored df preds) w); try done.
  by apply setitem_one_per_row.
Qed.

(** A request that returns has decoded to a table, and what it returns is
    what the bound model predicts for that table. *)
Lemma run_ok_inv raw w result w' :
  run raw w = (Ok result, w') →
  ∃ df m df',
    well_formed raw df ∧ g_model (globals w) = Some m ∧ predict m df = Ok result
    ∧ setitem df Predicted_Temperature result = Ok df'.
Proof.
  destruct w as [env [gm gi go gio] fr tr].
  assert (Hlook : ∀ (x : DataFrame) rest, (fr ++ x :: rest) !! length fr = Some x).
  { intros. by apply list_lookup_middle. }
  assert (Hins : ∀ (x y : DataFrame) rest, <[length fr := y]> (fr ++ x :: rest) = fr ++ y :: rest).
  { intros. rewrite insert_app_r_alt by lia. by rewrite Nat.sub_diag. }
  unfold_run.
  destruct (json_loads raw) as [j|] eqn:Hj; [|done].
  destruct (getitem j "data") as [data|] eqn:Hdata; [|done].
  destruct (pd_DataFrame data) as [df|] eqn:Hdf; [|done].
  step. rewrite Hlook. step.
  destruct gi as [ci|]; [|done].
  step. rewrite Hlook.
  destruct (Collector_collect _ ci df None) as [ctx|]; [|done].
  step. destruct gm as [m|]; [|done].
  step. rewrite Hlook.
  destruct (predict m df) as [preds|] eqn:Hpred; [|done].
  step. rewrite Hlook.
  destruct (setitem df Predicted_Temperature preds) as [df'|] eqn:Hset; [|done].
  step. rewrite Hins.
  destruct go as [co|]; [|done].
  step. rewrite Hlook.
  destruct (getitem_columns df' [Predicted_Temperature]) as [view|]; [|done].
  step. rewrite length_app, Nat.add_1_r, <- app_assoc. step.
  rewrite lookup_app_r by lia. replace (S (length fr) - length fr) with 1 by lia.
  cbn -[insert setitem getitem_columns].
  destruct (Collector_collect _ co view (Some ctx)) as [ctx2|]; [|done].
  step. destruct gio as [cio|]; [|done].
  step. rewrite Hlook.
  destruct (Collector_collect _ cio df' (Some ctx)) as [ctx3|]; [|done].
  step. intros [= <- _]. exists df, m, df'. split; [by exists j, data|done].
Qed.

(** With no emitter bound, a request raises and nothing is emitted. *)
Lemma run_unbound raw w :
  g_inputs_collector (globals w) = None →
  ∃ e, (run raw w).1 = Raise e ∧ emissions (trace (run raw w).2) = emissions (trace w).
Proof.
  intros Hnone. destruct w as [env g fr tr]. simpl in Hnone.
  unfold run, bind, lift, new_DataFrame, bind, lift, alloc, deref, print, log, read_global.
  destruct (json_loads raw) as [j|e]; [|by eexists].
  destruct (getitem j "data") as [data|e]; [|by eexists].
  destruct (pd_DataFrame data) as [df|e]; [|by eexists].
  cbn -[lookup]. rewrite list_lookup_middle by done. cbn. rewrite Hnone. cbn.
  eexists; split; [done|]. rewrite emissions_app. simpl. by rewrite app_nil_r.
Qed.

(** ** The steps of [init] *)

Lemma init_without_dir w :
  environ w !! "AZUREML_MODEL_DIR" = None → init w = (Raise TypeError, w).
Proof. intros Hnone. unfold init, bind, getenv, lift. by rewrite Hnone. Qed.

Lemma init_load_fails w base e :
  environ w !! "AZUREML_MODEL_DIR" = Some base →
  mlflow_load_model (os_path_join base "model") = Raise e →
  init w = (Raise e,
            mkWorld (environ w) (globals w) (frames w)
              (trace w ++ [EvLoadModel (os_path_join base "model")])).
Proof.
  intros Hbase Hload.
  unfold init, bind, getenv, lift, load_model, bind, log, lift.
  rewrite Hbase. cbn. by rewrite Hload.
Qed.

Lemma init_ok w base m :
  environ w !! "AZUREML_MODEL_DIR" = Some base →
  mlflow_load_model (os_path_join base "model") = Ok m →
  Collector_init "model_inputs" = Ok tt →
  Collector_init "model_outputs" = Ok tt →
  Collector_init "model_inputs_outputs" = Ok tt →
  init w = (Ok tt,
            mkWorld (environ w)
              (mkGlobals (Some m) (Some (mkCollector "model_inputs"))
                 (Some (mkCollector "model_outputs"))
                 (Some (mkCollector "model_inputs_outputs")))
              (frames w)
              (trace w ++ [EvLoadModel (os_path_join base "model");
                           EvNewCollector "model_inputs";
                           EvNewCollector "model_outputs";
                           EvNewCollector "model_inputs_outputs";
                           EvPrint (PCollector (mkCollector "model_inputs"))])).
Proof.
  intros Hbase Hload Hin Hout Hboth.
  unfold init, bind, getenv, lift, load_model, new_Collector, set_globals, read_global,
    print, bind, log, lift, ret.
  rewrite Hbase. cbn. rewrite Hload. cbn. rewrite Hin, Hout, Hboth. cbn.
  by rewrite <- !app_assoc.
Qed.

End Steps.

(** ** The small platform *)


Lemma numbering_accepts fs : telemetry_accepts (P := Demo.platform fs).
Proof. intros h c df [ctx|]; by eexists. Qed.


(** ** Symbolic runs *)

Lemma lookup_fresh {A} (l : list A) x rest : (l ++ x :: rest) !! length l = Some x.
Proof. by apply list_lookup_middle. Qed.

Lemma lookup_second {A} (l : list A) x y : (l ++ [x; y]) !! S (length l) = Some y.
Proof. rewrite lookup_app_r by lia. by replace (S (length l) - length l) with 1 by lia. Qed.

Lemma insert_fresh {A} (l : list A) x y rest :
  <[length l := y]> (l ++ x :: rest) = l ++ y :: rest.
Proof. rewrite insert_app_r_alt by lia. by rewrite Nat.sub_diag. Qed.

(** One step of [run], symbolically: simplify, resolve the store accesses,
    then branch on the next call into a library or read of a name. *)
Ltac split_head :=
  match goal with
  | |- context [match ?x with _ => _ end] =>
      lazymatch x with
      | json_loads _ => idtac
      | getitem _ _ => idtac
      | pd_DataFrame _ => idtac
      | Collector_collect _ _ _ _ => idtac
      | predict _ _ => idtac
      | setitem _ _ _ => idtac
      | _ => is_var x
      end;
      destruct x eqn:?
  end.

Ltac tidy :=
  repeat (step;
          progress (rewrite ?lookup_fresh, ?lookup_second, ?insert_fresh, ?length_app,
                      ?Nat.add_1_r, <- ?app_assoc;
                    try (erewrite setitem_view by eassumption)));
  step.

Ltac run_cases := unfold_run; repeat (tidy; split_head); tidy.

(** The same with emitters known to accept: an emission has one outcome. *)
Ltac accept_head Hacc :=
  match goal with
  | |- context [match Collector_collect ?h ?c ?df ?arg with _ => _ end] =>
      let ctx := fresh "ctx" in
      let Hctx := fresh "Hctx" in
      destruct (Hacc h c df arg) as [ctx Hctx]; rewrite Hctx
  end.

Ltac run_cases_accepting Hacc :=
  unfold_run; repeat (tidy; first [accept_head Hacc | split_head]); tidy.

(** * The specified behaviour of [run] and [init] *)

Section Requests.
Context `{P : Platform}.

(** C1.  A request that decodes to a table of [nrows df] rows, served after
    [init] by a model whose [predict] returns one prediction per row (and
    with emitters that accept the emissions), makes [run] return a list of
    exactly [nrows df] elements whose i-th element is the model's prediction
    for the i-th row: the list is the model's output, element by element, in
    the model's order. *)
Theorem run_returns_predictions_in_row_order raw df m ci co cio preds w :
  well_formed raw df →
  initialised w m ci co cio →
  predict m df = Ok preds →
  length preds = nrows df →
  telemetry_accepts →
  ∃ result w',
    run raw w = (Ok result, w')
    ∧ length result = nrows df
    ∧ ∀ i, result !! i = preds !! i.
Proof.
  intros Hwf Hinit Hpred Hlen Hacc.
  destruct (run_ok raw df m ci co cio preds w) as (ctx & ctx2 & ctx3 & _ & Hrun); try done.
  by eexists preds, _.
Qed.

(** C2.  On the request text of two rows, [feature_a] 1.0 with [feature_b]
    2.0 and [feature_a] 3.0 with [feature_b] 4.0 ([Demo.request_two_rows]),
    decoded the way JSON reads it and tabulated as two rows under the columns
    [feature_a] and [feature_b], with the model that adds the two features of
    each row, [run] returns exactly the list of 3.0 and 7.0. *)
Theorem run_two_rows_sum_model ci co cio w :
  json_loads Demo.request_two_rows = Ok Demo.value_two_rows →
  pd_DataFrame Demo.rows_two_rows = Ok Demo.table_two_rows →
  initialised w Demo.sum_model ci co cio →
  telemetry_accepts →
  ∃ w', run Demo.request_two_rows w = (Ok [3.0; 7.0]%float, w').
Proof.
  intros Hj Hdf Hinit Hacc.
  destruct (run_ok Demo.request_two_rows Demo.table_two_rows Demo.sum_model ci co cio
              [3.0; 7.0]%float w) as (ctx & ctx2 & ctx3 & _ & Hrun); try done.
  - by exists Demo.value_two_rows, Demo.rows_two_rows.
  - by eexists.
Qed.

(** C3, as amended.  For a well-formed request whose table has no column
    named [Predicted_Temperature], the table given to the combined emitter is
    the parsed table with one column appended after its columns: its labels
    are the input's labels followed by [Predicted_Temperature], the input's
    columns are unchanged and the new column holds the predictions. *)
Theorem combined_table_appends_prediction raw df m ci co cio preds w :
  well_formed raw df →
  initialised w m ci co cio →
  predict m df = Ok preds →
  length preds = nrows df →
  telemetry_accepts →
  Predicted_Temperature ∉ labels df →
  ∃ w' first second ctx returned,
    run raw w = (Ok preds, w')
    ∧ emissions (trace w') =
        emissions (trace w) ++
          [first; second;
           mkEmission cio (length (frames w))
             (mkFrame (nrows df) (columns df ++ [(Predicted_Temperature, VFloat <$> preds)]))
             (Some ctx) returned]
    ∧ labels (mkFrame (nrows df) (columns df ++ [(Predicted_Temperature, VFloat <$> preds)]))
      = labels df ++ [Predicted_Temperature].
Proof.
  intros Hwf Hinit Hpred Hlen Hacc Hfresh.
  destruct (run_ok raw df m ci co cio preds w) as (ctx & ctx2 & ctx3 & _ & Hrun); try done.
  eexists _, _, _, ctx, ctx3. split; [exact Hrun|]. split.
  - simpl. rewrite emissions_app. simpl. unfold scored.
    by rewrite (set_column_fresh _ _ _ Hfresh).
  - unfold labels. simpl. by rewrite fmap_app.
Qed.

(** C4.  A request that does not decode to a table (the text is not JSON,
    the value has no ['data'] item, or the table constructor refuses the
    item, as it does a bare string) makes [run] raise that exception as its
    result, with the process exactly as it was: nothing was emitted, the
    four names are bound as before, and any later request runs as if the
    failed one had never been made. *)
Theorem run_malformed_request_changes_nothing raw e w :
  malformed raw e →
  run raw w = (Raise e, w)
  ∧ emissions (trace (run raw w).2) = emissions (trace w)
  ∧ ∀ raw', run raw' (run raw w).2 = run raw' w.
Proof.
  intros Hbad. rewrite (run_malformed raw e w Hbad). done.
Qed.


(** C8.  With the same model handle bound and the same request text, two
    invocations of [run], in whatever states of the process (in particular
    one after the other), return the same list of predictions: when one has
    returned a list, the other can return no other list, and it does return
    that list when the three emitters are bound and accept the emissions. *)
Theorem run_is_a_function_of_model_and_request raw w1 w2 r1 :
  g_model (globals w2) = g_model (globals w1) →
  (run raw w1).1 = Ok r1 →
  (∀ r2, (run raw w2).1 = Ok r2 → r2 = r1)
  ∧ (telemetry_accepts →
     is_Some (g_inputs_collector (globals w2)) →
     is_Some (g_outputs_collector (globals w2)) →
     is_Some (g_inputs_outputs_collector (globals w2)) →
     (run raw w2).1 = Ok r1).
Proof.
  intros Hmodel H1.
  destruct (run raw w1) as [res1 w1'] eqn:E1. simpl in H1. subst res1.
  apply run_ok_inv in E1
    as (df1 & m1 & df1' & (j1 & d1 & Hj1 & Hd1 & Hdf1) & Hm1 & Hp1 & Hset1).
  split.
  - intros r2 H2. destruct (run raw w2) as [res2 w2'] eqn:E2. simpl in H2. subst res2.
    apply run_ok_inv in E2
      as (df2 & m2 & df2' & (j2 & d2 & Hj2 & Hd2 & Hdf2) & Hm2 & Hp2 & _).
    congruence.
  - intros Hacc [ci Hci] [co Hco] [cio Hcio].
    destruct (run_served raw df1 m1 ci co cio r1 df1' w2)
      as (ctx & ctx2 & ctx3 & _ & Hrun); try done.
    + by exists j1, d1.
    + unfold initialised. destruct (globals w2); simpl in *. congruence.
    + by rewrite Hrun.
Qed.

(** C9.  [run] builds no output table: the table object given to the
    combined emitter is the object that was given to the inputs emitter (one
    address), changed in place by the column assignment.  The inputs emitter
    saw the parsed table as it was before the assignment; after the request
    that same object holds the [Predicted_Temperature] column.  The request
    creates two table objects only, the parsed table and the one-column view
    given to the outputs emitter. *)
Theorem run_scores_the_parsed_table_in_place raw df m ci co cio preds w :
  well_formed raw df →
  initialised w m ci co cio →
  predict m df = Ok preds →
  length preds = nrows df →
  telemetry_accepts →
  ∃ w' ctx ctx2 ctx3 input_df,
    run raw w = (Ok preds, w')
    ∧ input_df = length (frames w)
    ∧ emissions (trace w') =
        emissions (trace w) ++
          [mkEmission ci input_df df None ctx;
           mkEmission co (S input_df) (prediction_view df preds) (Some ctx) ctx2;
           mkEmission cio input_df (scored df preds) (Some ctx) ctx3]
    ∧ frames w' = frames w ++ [scored df preds; prediction_view df preds]
    ∧ frames w' !! input_df = Some (scored df preds)
    ∧ Predicted_Temperature ∈ labels (scored df preds).
Proof.
  intros Hwf Hinit Hpred Hlen Hacc.
  destruct (run_ok raw df m ci co cio preds w) as (ctx & ctx2 & ctx3 & _ & Hrun); try done.
  eexists _, ctx, ctx2, ctx3, _. split; [exact Hrun|]. split; [done|]. simpl.
  split; [by rewrite emissions_app|]. split; [done|].
  split; [by apply list_lookup_middle|]. apply set_column_labels.
Qed.

End Requests.

Section Startup.
Context `{P : Platform}.

(** C6.  When the artifact at the joined path cannot be loaded, [init]
    raises the loader's exception having bound none of the four names and
    created no emitter (the model is loaded first); in the process it leaves,
    every request raises and emits nothing. *)
Theorem init_fails_before_any_emitter w base e :
  globals w = no_globals →
  environ w !! "AZUREML_MODEL_DIR" = Some base →
  mlflow_load_model (os_path_join base "model") = Raise e →
  ∃ w',
    init w = (Raise e, w')
    ∧ globals w' = no_globals
    ∧ collectors_created (trace w') = collectors_created (trace w)
    ∧ ∀ raw, ∃ e', (run raw w').1 = Raise e'
                   ∧ emissions (trace (run raw w').2) = emissions (trace w').
Proof.
  intros Hfresh Hbase Hload. eexists. split; [by apply init_load_fails|]. simpl.
  split; [done|]. split.
  - unfold collectors_created. rewrite omap_app. simpl. by rewrite app_nil_r.
  - intros raw. apply run_unbound. simpl. by rewrite Hfresh.
Qed.


(** C10.  When the variable [AZUREML_MODEL_DIR] is not set, [init] raises
    TypeError (joining a missing directory with the name of the artifact)
    and leaves the process as it was: no artifact load was attempted and no
    emitter was created.  A missing artifact is a different failure: there
    the load is attempted at the joined path and the loader's own exception
    comes out. *)
Theorem init_without_model_dir_raises w :
  environ w !! "AZUREML_MODEL_DIR" = None →
  init w = (Raise TypeError, w)
  ∧ loads_attempted (trace (init w).2) = loads_attempted (trace w)
  ∧ collectors_created (trace (init w).2) = collectors_created (trace w)
  ∧ ∀ w0 base e,
      environ w0 !! "AZUREML_MODEL_DIR" = Some base →
      mlflow_load_model (os_path_join base "model") = Raise e →
      (init w0).1 = Raise e
      ∧ loads_attempted (trace (init w0).2) =
          loads_attempted (trace w0) ++ [os_path_join base "model"].
Proof.
  intros Hnone. rewrite (init_without_dir w Hnone). repeat split; try done.
  - by rewrite (init_load_fails w0 base e).
  - rewrite (init_load_fails w0 base e) by done. simpl.
    unfold loads_attempted. by rewrite omap_app.
Qed.

End Startup.

(** ** Concrete requests *)

(** The two-row request on the small platform, after [init]. *)
Lemma run_returns_predictions_in_row_order_witness :
  ∃ result w',
    run (P := Demo.platform Demo.fs_sum) Demo.request_two_rows (Demo.ready Demo.fs_sum)
    = (Ok result, w')
    ∧ length result = nrows Demo.table_two_rows
    ∧ ∀ i, result !! i = [3.0; 7.0]%float !! i.
Proof.
  apply (run_returns_predictions_in_row_order (P := Demo.platform Demo.fs_sum)
           Demo.request_two_rows Demo.table_two_rows Demo.sum_model
           (mkCollector "model_inputs") (mkCollector "model_outputs")
           (mkCollector "model_inputs_outputs") [3.0; 7.0]%float (Demo.ready Demo.fs_sum)).
  - exists Demo.value_two_rows, Demo.rows_two_rows. split_and!; vm_compute; reflexivity.
  - vm_compute; reflexivity.
  - reflexivity.
  - reflexivity.
  - apply numbering_accepts.
Defined.

(** The small platform decodes and tabulates the request as C2 assumes. *)
Lemma run_two_rows_sum_model_witness :
  ∃ w', run (P := Demo.platform Demo.fs_sum) Demo.request_two_rows (Demo.ready Demo.fs_sum)
        = (Ok [3.0; 7.0]%float, w').
Proof.
  apply (run_two_rows_sum_model (P := Demo.platform Demo.fs_sum)
           (mkCollector "model_inputs") (mkCollector "model_outputs")
           (mkCollector "model_inputs_outputs") (Demo.ready Demo.fs_sum)).
  - vm_compute; reflexivity.
  - vm_compute; reflexivity.
  - vm_compute; reflexivity.
  - apply numbering_accepts.
Defined.

(** C3 as stated fails: a request whose rows already have a
    [Predicted_Temperature] item is well-formed and is served, and the table
    given to the combined emitter has the two columns of the input, in the
    input's order, and no additional one: the assignment replaced the cells
    of the existing column. *)
Lemma prediction_column_overwritten_in_place :
  well_formed (P := Demo.platform Demo.fs_constant)
    Demo.request_with_prediction_column Demo.table_with_prediction_column
  ∧ initialised (Demo.ready Demo.fs_constant) Demo.constant_model
      (mkCollector "model_inputs") (mkCollector "model_outputs")
      (mkCollector "model_inputs_outputs")
  ∧ (run (P := Demo.platform Demo.fs_constant) Demo.request_with_prediction_column
       (Demo.ready Demo.fs_constant)).1 = Ok [0.5]%float
  ∧ (λ em, (name (emitter em), labels (table em)))
      <$> emissions (trace (run (P := Demo.platform Demo.fs_constant)
                              Demo.request_with_prediction_column
                              (Demo.ready Demo.fs_constant)).2)
    = [("model_inputs", [LStr "Predicted_Temperature"; LStr "feature_a"]);
       ("model_outputs", [LStr "Predicted_Temperature"]);
       ("model_inputs_outputs", [LStr "Predicted_Temperature"; LStr "feature_a"])]
  ∧ labels Demo.table_with_prediction_column
    = [LStr "Predicted_Temperature"; LStr "feature_a"].
Proof.
  split_and!.
  - eexists _, _. split_and!; [vm_compute; reflexivity | reflexivity | vm_compute; reflexivity].
  - vm_compute; reflexivity.
  - vm_compute; reflexivity.
  - vm_compute; reflexivity.
  - reflexivity.
Qed.

(** The two-row request has no [Predicted_Temperature] column. *)
Lemma combined_table_appends_prediction_witness :
  ∃ w' first second ctx returned,
    run (P := Demo.platform Demo.fs_sum) Demo.request_two_rows (Demo.ready Demo.fs_sum)
    = (Ok [3.0; 7.0]%float, w')
    ∧ emissions (trace w') =
        emissions (trace (Demo.ready Demo.fs_sum)) ++
          [first; second;
           mkEmission (mkCollector "model_inputs_outputs")
             (length (frames (Demo.ready Demo.fs_sum)))
             (mkFrame (nrows Demo.table_two_rows)
                (columns Demo.table_two_rows
                 ++ [(Predicted_Temperature, VFloat <$> [3.0; 7.0]%float)]))
             (Some ctx) returned]
    ∧ labels (mkFrame (nrows Demo.table_two_rows)
                (columns Demo.table_two_rows
                 ++ [(Predicted_Temperature, VFloat <$> [3.0; 7.0]%float)]))
      = labels Demo.table_two_rows ++ [Predicted_Temperature].
Proof.
  apply (combined_table_appends_prediction (P := Demo.platform Demo.fs_sum)
           Demo.request_two_rows Demo.table_two_rows Demo.sum_model
           (mkCollector "model_inputs") (mkCollector "model_outputs")
           (mkCollector "model_inputs_outputs") [3.0; 7.0]%float (Demo.ready Demo.fs_sum)).
  - exists Demo.value_two_rows, Demo.rows_two_rows. split_and!; vm_compute; reflexivity.
  - vm_compute; reflexivity.
  - reflexivity.
  - reflexivity.
  - apply numbering_accepts.
  - vm_compute. intros Hin.
    repeat (apply elem_of_cons in Hin as [Hin|Hin]; [done|]).
    by apply elem_of_nil in Hin.
Defined.

(** The request whose [data] item is a bare string. *)
Lemma run_malformed_request_changes_nothing_witness :
  run (P := Demo.platform Demo.fs_sum) Demo.request_not_a_table (Demo.ready Demo.fs_sum)
  = (Raise ValueError, Demo.ready Demo.fs_sum)
  ∧ emissions (trace (run (P := Demo.platform Demo.fs_sum) Demo.request_not_a_table
                        (Demo.ready Demo.fs_sum)).2)
    = emissions (trace (Demo.ready Demo.fs_sum))
  ∧ ∀ raw',
      run (P := Demo.platform Demo.fs_sum) raw'
        (run (P := Demo.platform Demo.fs_sum) Demo.request_not_a_table
           (Demo.ready Demo.fs_sum)).2
      = run (P := Demo.platform Demo.fs_sum) raw' (Demo.ready Demo.fs_sum).
Proof.
  apply (run_malformed_request_changes_nothing (P := Demo.platform Demo.fs_sum)
           Demo.request_not_a_table ValueError (Demo.ready Demo.fs_sum)).
  right; right. exists (VDict [("data", VStr "not-a-table")]), (VStr "not-a-table").
  split_and!; vm_compute; reflexivity.
Defined.



(** A process started with the directory set and no artifact in it. *)
Lemma init_fails_before_any_emitter_witness :
  ∃ w',
    init (P := Demo.platform []) Demo.started
    = (Raise (LibraryError "no such artifact"), w')
    ∧ globals w' = no_globals
    ∧ collectors_created (trace w') = collectors_created (trace Demo.started)
    ∧ ∀ raw, ∃ e', (run (P := Demo.platform []) raw w').1 = Raise e'
                   ∧ emissions (trace (run (P := Demo.platform []) raw w').2)
                     = emissions (trace w').
Proof.
  apply (init_fails_before_any_emitter (P := Demo.platform []) Demo.started Demo.model_dir
           (LibraryError "no such artifact")).
  - reflexivity.
  - vm_compute; reflexivity.
  - vm_compute; reflexivity.
Defined.


(** The two-row request served twice in a row. *)
Lemma run_is_a_function_of_model_and_request_witness :
  (∀ r2,
     (run (P := Demo.platform Demo.fs_sum) Demo.request_two_rows
        (run (P := Demo.platform Demo.fs_sum) Demo.request_two_rows
           (Demo.ready Demo.fs_sum)).2).1 = Ok r2 →
     r2 = [3.0; 7.0]%float)
  ∧ (telemetry_accepts (P := Demo.platform Demo.fs_sum) →
     is_Some (g_inputs_collector
                (globals (run (P := Demo.platform Demo.fs_sum) Demo.request_two_rows
                            (Demo.ready Demo.fs_sum)).2)) →
     is_Some (g_outputs_collector
                (globals (run (P := Demo.platform Demo.fs_sum) Demo.request_two_rows
                            (Demo.ready Demo.fs_sum)).2)) →
     is_Some (g_inputs_outputs_collector
                (globals (run (P := Demo.platform Demo.fs_sum) Demo.request_two_rows
                            (Demo.ready Demo.fs_sum)).2)) →
     (run (P := Demo.platform Demo.fs_sum) Demo.request_two_rows
        (run (P := Demo.platform Demo.fs_sum) Demo.request_two_rows
           (Demo.ready Demo.fs_sum)).2).1 = Ok [3.0; 7.0]%float).
Proof.
  apply (run_is_a_function_of_model_and_request (P := Demo.platform Demo.fs_sum)
           Demo.request_two_rows (Demo.ready Demo.fs_sum)
           (run (P := Demo.platform Demo.fs_sum) Demo.request_two_rows
              (Demo.ready Demo.fs_sum)).2).
  - vm_compute; reflexivity.
  - vm_compute; reflexivity.
Defined.

(** The two-row request: objects 0 and 1 of the store. *)
Lemma run_scores_the_parsed_table_in_place_witness :
  ∃ w' ctx ctx2 ctx3 input_df,
    run (P := Demo.platform Demo.fs_sum) Demo.request_two_rows (Demo.ready Demo.fs_sum)
    = (Ok [3.0; 7.0]%float, w')
    ∧ input_df = length (frames (Demo.ready Demo.fs_sum))
    ∧ emissions (trace w') =
        emissions (trace (Demo.ready Demo.fs_sum)) ++
          [mkEmission (mkCollector "model_inputs") input_df Demo.table_two_rows None ctx;
           mkEmission (mkCollector "model_outputs") (S input_df)
             (prediction_view Demo.table_two_rows [3.0; 7.0]%float) (Some ctx) ctx2;
           mkEmission (mkCollector "model_inputs_outputs") input_df
             (scored Demo.table_two_rows [3.0; 7.0]%float) (Some ctx) ctx3]
    ∧ frames w' = frames (Demo.ready Demo.fs_sum)
                  ++ [scored Demo.table_two_rows [3.0; 7.0]%float;
                      prediction_view Demo.table_two_rows [3.0; 7.0]%float]
    ∧ frames w' !! input_df = Some (scored Demo.table_two_rows [3.0; 7.0]%float)
    ∧ Predicted_Temperature ∈ labels (scored Demo.table_two_rows [3.0; 7.0]%float).
Proof.
  apply (run_scores_the_parsed_table_in_place (P := Demo.platform Demo.fs_sum)
           Demo.request_two_rows Demo.table_two_rows Demo.sum_model
           (mkCollector "model_inputs") (mkCollector "model_outputs")
           (mkCollector "model_inputs_outputs") [3.0; 7.0]%float (Demo.ready Demo.fs_sum)).
  - exists Demo.value_two_rows, Demo.rows_two_rows. split_and!; vm_compute; reflexivity.
  - vm_compute; reflexivity.
  - reflexivity.
  - reflexivity.
  - apply numbering_accepts.
Defined.

(** A process started with an empty environment. *)
Lemma init_without_model_dir_raises_witness :
  init (P := Demo.platform Demo.fs_sum) Demo.started_without_dir
  = (Raise TypeError, Demo.started_without_dir)
  ∧ loads_attempted (trace (init (P := Demo.platform Demo.fs_sum) Demo.started_without_dir).2)
    = loads_attempted (trace Demo.started_without_dir)
  ∧ collectors_created
      (trace (init (P := Demo.platform Demo.fs_sum) Demo.started_without_dir).2)
    = collectors_created (trace Demo.started_without_dir)
  ∧ ∀ w0 base e,
      environ w0 !! "AZUREML_MODEL_DIR" = Some base →
      mlflow_load_model (Platform := Demo.platform Demo.fs_sum) (os_path_join base "model")
      = Raise e →
      (init (P := Demo.platform Demo.fs_sum) w0).1 = Raise e
      ∧ loads_attempted (trace (init (P := Demo.platform Demo.fs_sum) w0).2) =
          loads_attempted (trace w0) ++ [os_path_join base "model"].
Proof.
  apply (init_without_model_dir_raises (P := Demo.platform Demo.fs_sum)
           Demo.started_without_dir).
  reflexivity.
Defined.

(** ** The script at work on the small platform *)

Example decode_two_rows : Demo.loads Demo.request_two_rows = Ok Demo.value_two_rows.
Proof. vm_compute; reflexivity. Qed.

Example tabulate_two_rows : Demo.frame_of_value Demo.rows_two_rows = Ok Demo.table_two_rows.
Proof. vm_compute; reflexivity. Qed.

Example init_then_two_rows :
  (run (P := Demo.platform Demo.fs_sum) Demo.request_two_rows (Demo.ready Demo.fs_sum)).1
  = Ok [3.0; 7.0]%float.
Proof. vm_compute; reflexivity. Qed.

Example two_rows_served_twice :
  (run (P := Demo.platform Demo.fs_sum) Demo.request_two_rows
     (run (P := Demo.platform Demo.fs_sum) Demo.request_two_rows
        (Demo.ready Demo.fs_sum)).2).1
  = Ok [3.0; 7.0]%float.
Proof. vm_compute; reflexivity. Qed.

Example request_before_init :
  (run (P := Demo.platform Demo.fs_sum) Demo.request_two_rows Demo.started).1
  = Raise (NameError "inputs_collector").
Proof. vm_compute; reflexivity. Qed.

(** A JSON object with no [data] item is a malformed request: the lookup
    raises KeyError. *)
Lemma missing_data_is_malformed `{P : Platform} raw items :
  json_loads raw = Ok (VDict items) →
  dict_get items "data" = None →
  malformed raw (KeyError "data").
Proof.
  intros Hj Hget. right; left. exists (VDict items). split; [done|].
  simpl. by rewrite Hget.
Qed.

Example request_without_data_raises :
  run (P := Demo.platform Demo.fs_sum) Demo.request_without_data (Demo.ready Demo.fs_sum)
  = (Raise (KeyError "data"), Demo.ready Demo.fs_sum).
Proof.
  apply run_malformed.
  apply (missing_data_is_malformed (P := Demo.platform Demo.fs_sum) _ [("rows", VList [])]);
    vm_compute; reflexivity.
Qed.

(** A model that answers with fewer predictions than rows: the column
    assignment raises after the inputs emission has been made. *)
Example short_prediction_raises_after_inputs_emission :
  (run (P := Demo.platform [(Demo.model_dir +:+ "/model", mkModel (λ _, Ok [0.5%float]))])
     Demo.request_two_rows
     (Demo.ready [(Demo.model_dir +:+ "/model", mkModel (λ _, Ok [0.5%float]))])).1
  = Raise ValueError
  ∧ (λ em, name (emitter em))
      <$> emissions
            (trace (run (P := Demo.platform
                               [(Demo.model_dir +:+ "/model", mkModel (λ _, Ok [0.5%float]))])
                      Demo.request_two_rows
                      (Demo.ready
                         [(Demo.model_dir +:+ "/model", mkModel (λ _, Ok [0.5%float]))])).2)
    = ["model_inputs"].
Proof. split; vm_compute; reflexivity. Qed.

(** * Requests and start-ups that do not go to the end *)

(** ** Every request *)

Lemma printed_app tr1 tr2 : printed (tr1 ++ tr2) = printed tr1 ++ printed tr2.
Proof. apply omap_app. Qed.

Section Every_request.
Context `{P : Platform}.

(** X1.  Whatever the request and however it ends, [run] leaves the
    environment as it was, loads no artifact, and only adds to the store and
    to the trace: the table objects of earlier requests are where they were,
    with what they held, and at most two objects are new. *)
Theorem run_extends_the_process raw w :
  environ (run raw w).2 = environ w
  ∧ loads_attempted (trace (run raw w).2) = loads_attempted (trace w)
  ∧ ∃ new_objects new_events,
      frames (run raw w).2 = frames w ++ new_objects
      ∧ (length new_objects ≤ 2)%nat
      ∧ trace (run raw w).2 = trace w ++ new_events.
Proof.
  destruct (keeps_setup_run raw w) as (_ & Henv & _ & Hloads).
  split; [done|]. split; [done|]. clear Henv Hloads.
  destruct w as [env [gm gi go gio] fr tr].
  run_cases.
  all: try (exists [], []; rewrite !app_nil_r; split_and!; [done | simpl; lia | done]).
  all: try (eexists [_], _; split; [reflexivity|]; split; [simpl; lia|reflexivity]).
  all: try (eexists [_; _], _; split; [reflexivity|]; split; [simpl; lia|reflexivity]).
Qed.

(** X2.  Whatever the request and however it ends, the emissions it has made
    are an initial part of the three: never an outputs emission without the
    inputs emission before it, never the combined one without the other two;
    the inputs emission carries no context and the later ones carry the
    context it returned.  All three have been made exactly when [run]
    returns a list. *)
Theorem run_emits_in_order raw w :
  ∃ new,
    emissions (trace (run raw w).2) = emissions (trace w) ++ new
    ∧ request_emissions (globals w) (length (frames w)) new
    ∧ (length new = 3 ↔ ∃ result, (run raw w).1 = Ok result).
Proof.
  destruct w as [env [gm gi go gio] fr tr].
  run_cases.
  all: rewrite ?emissions_app; simpl.
  all: eexists; split; [first [reflexivity | symmetry; apply app_nil_r]|].
  all: split; [econstructor; reflexivity|].
  all: split; [intros Hlen; first [discriminate Hlen | by eexists]
              | intros [result Hresult]; first [discriminate Hresult | reflexivity]].
Qed.

(** X3.  Every request that decodes to a table has that table written to the
    standard output, as it was parsed, whether the request is then served or
    not (and whether or not [init] has run); the list of predictions is
    written after it exactly when [run] returns it. *)
Theorem run_prints_the_request raw df w :
  well_formed raw df →
  printed (trace (run raw w).2)
  = printed (trace w) ++ PFrame df :: match (run raw w).1 with
                                       | Ok result => [PList result]
                                       | Raise _ => []
                                       end.
Proof.
  intros (j & data & Hj & Hdata & Hdf).
  destruct w as [env [gm gi go gio] fr tr].
  unfold_run. rewrite Hj, Hdata, Hdf.
  repeat (tidy; split_head); tidy.
  all: rewrite ?printed_app; simpl; by rewrite ?app_nil_r.
Qed.

(** X4.  With emitters that accept, what [run] answers to a request text, a
    list or an exception, is decided by how the four names are bound: it is
    the same in any two states of the process that bind them alike, whatever
    the store holds and whatever requests were served before. *)
Theorem run_answer_depends_on_names_only raw w1 w2 :
  telemetry_accepts →
  globals w1 = globals w2 →
  (run raw w1).1 = (run raw w2).1.
Proof.
  intros Hacc Hg.
  destruct w1 as [env1 [gm gi go gio] fr1 tr1]. destruct w2 as [env2 g2 fr2 tr2].
  simpl in Hg. subst g2.
  run_cases_accepting Hacc; reflexivity.
Qed.

End Every_request.

(** Running [run] along known answers of the libraries. *)
Ltac follow :=
  unfold_run;
  repeat (tidy;
          match goal with
          | H : _ = _ |- _ => progress (rewrite H)
          end);
  tidy.

Lemma setitem_refuses df key vals :
  nrows df ≠ 0 → length vals ≠ nrows df → setitem df key vals = Raise ValueError.
Proof.
  intros Hrows Hlen. unfold setitem.
  rewrite decide_False by (intros [? ?]; done). by rewrite decide_False.
Qed.

Lemma setitem_on_no_rows df key vals :
  nrows df = 0 → vals ≠ [] →
  setitem df key vals
  = Ok (mkFrame (length vals)
          (set_column key (VFloat <$> vals)
             ((λ c, (c.1, replicate (length vals) (VFloat nan))) <$> columns df))).
Proof.
  intros Hrows Hvals. unfold setitem. rewrite decide_True; [done|].
  split; [done|]. by destruct vals.
Qed.

(** ** Requests that fail part of the way *)

Section Unserved.
Context `{P : Platform}.

(** X5.  A request text that is JSON but gives no ['data'] item raises
    before anything is done: TypeError when the decoded value is not an
    object (a list, a string, a number), KeyError for the key [data] when it
    is an object without that key.  The process is left as it was. *)
Theorem run_without_data_item raw v w :
  json_loads raw = Ok v →
  (∀ items, v = VDict items → dict_get items "data" = None) →
  run raw w = (Raise (if is_dict v then KeyError "data" else TypeError), w).
Proof.
  intros Hj Hitems. apply run_malformed. right; left. exists v. split; [done|].
  destruct v as [| | | | |?|items]; try done.
  simpl. by rewrite (Hitems items).
Qed.

(** X6.  A request that decodes to a table in a process where
    [inputs_collector] is not bound raises NameError for that name, also
    when the model is not bound either: the table has been built and printed,
    nothing has been emitted. *)
Theorem run_before_init raw df w :
  well_formed raw df →
  g_inputs_collector (globals w) = None →
  run raw w =
    (Raise (NameError "inputs_collector"),
     mkWorld (environ w) (globals w) (frames w ++ [df]) (trace w ++ [EvPrint (PFrame df)])).
Proof.
  intros (j & data & Hj & Hdata & Hdf) Hnone.
  destruct w as [env [gm gi go gio] fr tr]. simpl in Hnone. subst gi.
  by follow.
Qed.

(** X7.  When the model's [predict] raises, [run] raises that exception
    after the inputs emission has been made: the trace holds the print and
    the one emission, and the parsed table is in the store as it was parsed,
    with no prediction column. *)
Theorem run_inference_error raw df m ci co cio ctx e w :
  well_formed raw df →
  initialised w m ci co cio →
  Collector_collect (trace w ++ [EvPrint (PFrame df)]) ci df None = Ok ctx →
  predict m df = Raise e →
  run raw w =
    (Raise e,
     mkWorld (environ w) (globals w) (frames w ++ [df])
       (trace w ++ [EvPrint (PFrame df);
                    EvCollect ci (length (frames w)) df None ctx])).
Proof.
  intros (j & data & Hj & Hdata & Hdf) Hinit Hctx Hpred.
  destruct w as [env g fr tr]. unfold initialised in Hinit. simpl in *. subst g.
  by follow.
Qed.

(** X8.  When the model answers a table of at least one row with a number of
    predictions other than the number of rows, the column assignment raises
    ValueError: the inputs emission has been made, no prediction has been
    emitted or returned, and the parsed table is unchanged. *)
Theorem run_wrong_number_of_predictions raw df m ci co cio ctx preds w :
  well_formed raw df →
  initialised w m ci co cio →
  Collector_collect (trace w ++ [EvPrint (PFrame df)]) ci df None = Ok ctx →
  predict m df = Ok preds →
  nrows df ≠ 0 →
  length preds ≠ nrows df →
  run raw w =
    (Raise ValueError,
     mkWorld (environ w) (globals w) (frames w ++ [df])
       (trace w ++ [EvPrint (PFrame df);
                    EvCollect ci (length (frames w)) df None ctx])).
Proof.
  intros (j & data & Hj & Hdata & Hdf) Hinit Hctx Hpred Hrows Hlen.
  pose proof (setitem_refuses df Predicted_Temperature preds Hrows Hlen) as Hset.
  destruct w as [env g fr tr]. unfold initialised in Hinit. simpl in *. subst g.
  by follow.
Qed.

(** X9.  An emission that raises fails the request with that exception, and
    what has been done stays done.  At the inputs emitter: nothing is
    emitted and the table is as parsed.  At the outputs emitter: the inputs
    emission has been made and the table already holds the prediction
    column.  At the combined emitter: the inputs and the outputs emission
    have been made. *)
Theorem run_fails_when_an_emitter_raises raw df m ci co cio preds e w :
  well_formed raw df →
  initialised w m ci co cio →
  predict m df = Ok preds →
  length preds = nrows df →
  (Collector_collect (trace w ++ [EvPrint (PFrame df)]) ci df None = Raise e →
   run raw w =
     (Raise e,
      mkWorld (environ w) (globals w) (frames w ++ [df])
        (trace w ++ [EvPrint (PFrame df)])))
  ∧ (∀ ctx,
       Collector_collect (trace w ++ [EvPrint (PFrame df)]) ci df None = Ok ctx →
       Collector_collect
         (trace w ++ [EvPrint (PFrame df); EvCollect ci (length (frames w)) df None ctx])
         co (prediction_view df preds) (Some ctx) = Raise e →
       run raw w =
         (Raise e,
          mkWorld (environ w) (globals w)
            (frames w ++ [scored df preds; prediction_view df preds])
            (trace w ++ [EvPrint (PFrame df);
                         EvCollect ci (length (frames w)) df None ctx])))
  ∧ (∀ ctx ctx2,
       Collector_collect (trace w ++ [EvPrint (PFrame df)]) ci df None = Ok ctx →
       Collector_collect
         (trace w ++ [EvPrint (PFrame df); EvCollect ci (length (frames w)) df None ctx])
         co (prediction_view df preds) (Some ctx) = Ok ctx2 →
       Collector_collect
         (trace w ++ [EvPrint (PFrame df); EvCollect ci (length (frames w)) df None ctx;
                      EvCollect co (S (length (frames w))) (prediction_view df preds)
                        (Some ctx) ctx2])
         cio (scored df preds) (Some ctx) = Raise e →
       run raw w =
         (Raise e,
          mkWorld (environ w) (globals w)
            (frames w ++ [scored df preds; prediction_view df preds])
            (trace w ++ [EvPrint (PFrame df);
                         EvCollect ci (length (frames w)) df None ctx;
                         EvCollect co (S (length (frames w))) (prediction_view df preds)
                           (Some ctx) ctx2]))).
Proof.
  intros (j & data & Hj & Hdata & Hdf) Hinit Hpred Hlen.
  pose proof (setitem_one_per_row df Predicted_Temperature preds Hlen) as Hset.
  destruct w as [env g fr tr]. unfold initialised in Hinit. simpl in *. subst g.
  unfold scored, prediction_view.
  split_and!.
  - intros Hc1. by follow.
  - intros ctx Hc1 Hc2. by follow.
  - intros ctx ctx2 Hc1 Hc2 Hc3. by follow.
Qed.

(** X10.  The number of predictions is checked against the table only when
    the table has rows.  For a table with no rows and a model that answers
    with some predictions, the assignment gives the table one row per
    prediction, the columns of the input filled with NaN, and [run] returns
    the predictions: more elements than the request had rows. *)
Theorem run_empty_table_takes_any_predictions raw df m ci co cio preds w :
  well_formed raw df →
  initialised w m ci co cio →
  predict m df = Ok preds →
  nrows df = 0 →
  preds ≠ [] →
  telemetry_accepts →
  ∃ w' first second ctx returned,
    run raw w = (Ok preds, w')
    ∧ length preds ≠ nrows df
    ∧ emissions (trace w') =
        emissions (trace w) ++
          [first; second;
           mkEmission cio (length (frames w))
             (mkFrame (length preds)
                (set_column Predicted_Temperature (VFloat <$> preds)
                   ((λ c, (c.1, replicate (length preds) (VFloat nan))) <$> columns df)))
             (Some ctx) returned].
Proof.
  intros Hwf Hinit Hpred Hrows Hpreds Hacc.
  pose proof (setitem_on_no_rows df Predicted_Temperature preds Hrows Hpreds) as Hset.
  destruct (run_served raw df m ci co cio preds _ w Hwf Hinit Hpred Hset Hacc)
    as (ctx & ctx2 & ctx3 & _ & Hrun).
  eexists _, _, _, ctx, ctx3. split; [exact Hrun|]. split.
  - rewrite Hrows. by destruct preds.
  - simpl. by rewrite emissions_app.
Qed.

End Unserved.

(** ** Start-up *)

(** [init] symbolically, branching on each call into a library. *)
Ltac init_cases :=
  unfold init, bind, getenv, lift, load_model, new_Collector, set_globals, read_global,
    print, bind, log, lift, ret;
  repeat (cbn;
          match goal with
          | |- context [match ?x with _ => _ end] =>
              lazymatch x with
              | _ !! _ => idtac
              | mlflow_load_model _ => idtac
              | Collector_init _ => idtac
              end;
              destruct x eqn:?
          end);
  cbn.

Section Startup_edges.
Context `{P : Platform}.

(** X11.  In a process just started, however [init] ends, the names it has
    bound are an initial part of model, inputs emitter, outputs emitter,
    combined emitter; all four are bound exactly when [init] returns. *)
Theorem init_binds_in_order w :
  globals w = no_globals →
  ∃ k,
    bound_in_order (globals (init w).2) = Some k
    ∧ (k = 4 ↔ (init w).1 = Ok tt).
Proof.
  destruct w as [env g fr tr]. simpl. intros ->.
  init_cases.
  all: repeat match goal with u : unit |- _ => destruct u end.
  all: eexists; split; [reflexivity|]; split; intros H; first [discriminate H | done].
Qed.

(** X15.  However [init] ends, it leaves the environment and the store as
    they were and emits nothing; it attempts at most one artifact load, and
    the emitters it has created are an initial part of [model_inputs],
    [model_outputs], [model_inputs_outputs]. *)
Theorem init_extends_the_process w :
  environ (init w).2 = environ w
  ∧ frames (init w).2 = frames w
  ∧ emissions (trace (init w).2) = emissions (trace w)
  ∧ ∃ new_events,
      trace (init w).2 = trace w ++ new_events
      ∧ (length (loads_attempted new_events) ≤ 1)%nat
      ∧ collectors_created new_events
          `prefix_of` ["model_inputs"; "model_outputs"; "model_inputs_outputs"].
Proof.
  destruct w as [env g fr tr].
  init_cases.
  all: rewrite <- ?app_assoc; rewrite ?emissions_app; simpl; rewrite ?app_nil_r.
  all: split_and!; try done.
  all: first [ eexists; split; [reflexivity|]
             | exists []; split; [by rewrite app_nil_r|] ].
  all: simpl; split; [lia|]; by eexists.
Qed.

(** X12.  When the outputs emitter cannot be created, [init] raises with the
    model and the inputs emitter already bound: the two later names are left
    as they were, and one emitter has been created. *)
Theorem init_stops_at_the_emitter_that_fails w base m e :
  environ w !! "AZUREML_MODEL_DIR" = Some base →
  mlflow_load_model (os_path_join base "model") = Ok m →
  Collector_init "model_inputs" = Ok tt →
  Collector_init "model_outputs" = Raise e →
  init w =
    (Raise e,
     mkWorld (environ w)
       (mkGlobals (Some m) (Some (mkCollector "model_inputs"))
          (g_outputs_collector (globals w)) (g_inputs_outputs_collector (globals w)))
       (frames w)
       (trace w ++ [EvLoadModel (os_path_join base "model");
                    EvNewCollector "model_inputs"])).
Proof.
  intros Hbase Hload Hin Hout.
  unfold init, bind, getenv, lift, load_model, new_Collector, set_globals, read_global,
    print, bind, log, lift, ret.
  rewrite Hbase. cbn. rewrite Hload. cbn. rewrite Hin. cbn. rewrite Hout. cbn.
  by rewrite <- !app_assoc.
Qed.

(** X13.  In a process where the model and the inputs emitter are bound and
    the outputs emitter is not, a well-formed request is served part of the
    way: the inputs emission is made, the model is consulted, the table
    takes the prediction column, and then [run] raises NameError for
    [outputs_collector]. *)
Theorem run_in_a_partly_initialised_process raw df m ci cio preds ctx w :
  well_formed raw df →
  globals w = mkGlobals (Some m) (Some ci) None cio →
  Collector_collect (trace w ++ [EvPrint (PFrame df)]) ci df None = Ok ctx →
  predict m df = Ok preds →
  length preds = nrows df →
  run raw w =
    (Raise (NameError "outputs_collector"),
     mkWorld (environ w) (globals w) (frames w ++ [scored df preds])
       (trace w ++ [EvPrint (PFrame df);
                    EvCollect ci (length (frames w)) df None ctx])).
Proof.
  intros (j & data & Hj & Hdata & Hdf) Hg Hctx Hpred Hlen.
  pose proof (setitem_one_per_row df Predicted_Temperature preds Hlen) as Hset.
  destruct w as [env g fr tr]. simpl in *. subst g. unfold scored.
  by follow.
Qed.

(** X14.  [init] has no guard against running twice.  A second [init] in the
    same environment succeeds and binds the names as the first did; the
    artifact has then been loaded twice and six emitters been created, two
    of each name. *)
Theorem init_again w base m :
  environ w !! "AZUREML_MODEL_DIR" = Some base →
  mlflow_load_model (os_path_join base "model") = Ok m →
  Collector_init "model_inputs" = Ok tt →
  Collector_init "model_outputs" = Ok tt →
  Collector_init "model_inputs_outputs" = Ok tt →
  ∃ w1 w2,
    init w = (Ok tt, w1)
    ∧ init w1 = (Ok tt, w2)
    ∧ globals w2 = globals w1
    ∧ frames w2 = frames w
    ∧ loads_attempted (trace w2) =
        loads_attempted (trace w) ++ [os_path_join base "model"; os_path_join base "model"]
    ∧ collectors_created (trace w2) =
        collectors_created (trace w)
        ++ ["model_inputs"; "model_outputs"; "model_inputs_outputs";
            "model_inputs"; "model_outputs"; "model_inputs_outputs"].
Proof.
  intros Hbase Hload Hin Hout Hboth.
  eexists _, _. split; [by apply init_ok|]. split; [by apply init_ok|]. simpl.
  unfold loads_attempted, collectors_created. rewrite !omap_app. simpl.
  by rewrite <- !app_assoc.
Qed.

(** X16.  Start-up and request together: after a successful [init] a
    well-formed request, served by the loaded model, calls the emitters of
    the channels [model_inputs], [model_outputs] and [model_inputs_outputs],
    in that order, and returns the predictions.  What each emitter is handed
    is a table object; at the time of its call the object handed to
    [model_inputs] holds the table as parsed, the one handed to
    [model_outputs] the one-column table of predictions, the one handed to
    [model_inputs_outputs] the table with the prediction column.  The first
    and the third are one object, and when the request ends that object
    holds the prediction column: an emitter that keeps the object and reads
    it later reads that column on the channel [model_inputs] too. *)
Theorem init_then_run w base m raw df preds :
  environ w !! "AZUREML_MODEL_DIR" = Some base →
  mlflow_load_model (os_path_join base "model") = Ok m →
  Collector_init "model_inputs" = Ok tt →
  Collector_init "model_outputs" = Ok tt →
  Collector_init "model_inputs_outputs" = Ok tt →
  well_formed raw df →
  predict m df = Ok preds →
  length preds = nrows df →
  telemetry_accepts →
  ∃ w1 w2,
    init w = (Ok tt, w1)
    ∧ run raw w1 = (Ok preds, w2)
    ∧ (λ em, (name (emitter em), table_obj em, table em)) <$> emissions (trace w2)
      = ((λ em, (name (emitter em), table_obj em, table em)) <$> emissions (trace w))
        ++ [("model_inputs", length (frames w), df);
            ("model_outputs", S (length (frames w)), prediction_view df preds);
            ("model_inputs_outputs", length (frames w), scored df preds)]
    ∧ frames w2 !! length (frames w) = Some (scored df preds)
    ∧ frames w2 !! S (length (frames w)) = Some (prediction_view df preds).
Proof.
  intros Hbase Hload Hin Hout Hboth Hwf Hpred Hlen Hacc.
  pose proof (init_ok w base m Hbase Hload Hin Hout Hboth) as Hinit.
  lazymatch type of Hinit with
  | _ = (_, ?w1) =>
      destruct (run_ok raw df m _ _ _ preds w1 Hwf eq_refl Hpred Hlen Hacc)
        as (ctx & ctx2 & ctx3 & _ & Hrun);
      exists w1
  end.
  eexists. split; [exact Hinit|]. split; [exact Hrun|]. simpl.
  split_and!.
  - rewrite <- !app_assoc. rewrite !emissions_app. simpl. by rewrite fmap_app.
  - apply lookup_fresh.
  - apply lookup_second.
Qed.

End Startup_edges.

(** ** Concrete requests and start-ups *)

(** The two-row request before [init]: printed, not served. *)
Lemma run_prints_the_request_witness :
  printed (trace (run (P := Demo.platform Demo.fs_sum) Demo.request_two_rows Demo.started).2)
  = printed (trace Demo.started)
    ++ PFrame Demo.table_two_rows
       :: match (run (P := Demo.platform Demo.fs_sum) Demo.request_two_rows Demo.started).1 with
          | Ok result => [PList result]
          | Raise _ => []
          end.
Proof.
  apply (run_prints_the_request (P := Demo.platform Demo.fs_sum)
           Demo.request_two_rows Demo.table_two_rows Demo.started).
  exists Demo.value_two_rows, Demo.rows_two_rows. split_and!; vm_compute; reflexivity.
Defined.

(** The process after [init] and the process after one more request. *)
Lemma run_answer_depends_on_names_only_witness :
  (run (P := Demo.platform Demo.fs_sum) Demo.request_two_rows (Demo.ready Demo.fs_sum)).1
  = (run (P := Demo.platform Demo.fs_sum) Demo.request_two_rows
       (run (P := Demo.platform Demo.fs_sum) Demo.request_two_rows
          (Demo.ready Demo.fs_sum)).2).1.
Proof.
  apply (run_answer_depends_on_names_only (P := Demo.platform Demo.fs_sum)
           Demo.request_two_rows (Demo.ready Demo.fs_sum)
           (run (P := Demo.platform Demo.fs_sum) Demo.request_two_rows
              (Demo.ready Demo.fs_sum)).2).
  - apply numbering_accepts.
  - vm_compute; reflexivity.
Defined.

(** An object with a [rows] item and no [data] item. *)
Lemma run_without_data_item_witness :
  run (P := Demo.platform Demo.fs_sum) Demo.request_without_data (Demo.ready Demo.fs_sum)
  = (Raise (if is_dict (VDict [("rows", VList [])]) then KeyError "data" else TypeError),
     Demo.ready Demo.fs_sum).
Proof.
  apply (run_without_data_item (P := Demo.platform Demo.fs_sum)
           Demo.request_without_data (VDict [("rows", VList [])]) (Demo.ready Demo.fs_sum)).
  - vm_compute; reflexivity.
  - intros items [= <-]. reflexivity.
Defined.

(** The two-row request before [init]. *)
Lemma run_before_init_witness :
  run (P := Demo.platform Demo.fs_sum) Demo.request_two_rows Demo.started
  = (Raise (NameError "inputs_collector"),
     mkWorld (environ Demo.started) (globals Demo.started)
       (frames Demo.started ++ [Demo.table_two_rows])
       (trace Demo.started ++ [EvPrint (PFrame Demo.table_two_rows)])).
Proof.
  apply (run_before_init (P := Demo.platform Demo.fs_sum)
           Demo.request_two_rows Demo.table_two_rows Demo.started).
  - exists Demo.value_two_rows, Demo.rows_two_rows. split_and!; vm_compute; reflexivity.
  - reflexivity.
Defined.

(** The two-row request and a model whose inference fails. *)
Lemma run_inference_error_witness :
  run (P := Demo.platform Demo.fs_failing) Demo.request_two_rows (Demo.ready Demo.fs_failing)
  = (Raise (LibraryError "inference failed"),
     mkWorld (environ (Demo.ready Demo.fs_failing)) (globals (Demo.ready Demo.fs_failing))
       (frames (Demo.ready Demo.fs_failing) ++ [Demo.table_two_rows])
       (trace (Demo.ready Demo.fs_failing)
        ++ [EvPrint (PFrame Demo.table_two_rows);
            EvCollect (mkCollector "model_inputs")
              (length (frames (Demo.ready Demo.fs_failing)))
              Demo.table_two_rows None (Ctx 1)])).
Proof.
  apply (run_inference_error (P := Demo.platform Demo.fs_failing)
           Demo.request_two_rows Demo.table_two_rows Demo.failing_model
           (mkCollector "model_inputs") (mkCollector "model_outputs")
           (mkCollector "model_inputs_outputs") (Ctx 1)
           (LibraryError "inference failed") (Demo.ready Demo.fs_failing)).
  - exists Demo.value_two_rows, Demo.rows_two_rows. split_and!; vm_compute; reflexivity.
  - vm_compute; reflexivity.
  - vm_compute; reflexivity.
  - reflexivity.
Defined.

(** The two-row request and a model that answers with one prediction. *)
Lemma run_wrong_number_of_predictions_witness :
  run (P := Demo.platform Demo.fs_one_prediction) Demo.request_two_rows
    (Demo.ready Demo.fs_one_prediction)
  = (Raise ValueError,
     mkWorld (environ (Demo.ready Demo.fs_one_prediction))
       (globals (Demo.ready Demo.fs_one_prediction))
       (frames (Demo.ready Demo.fs_one_prediction) ++ [Demo.table_two_rows])
       (trace (Demo.ready Demo.fs_one_prediction)
        ++ [EvPrint (PFrame Demo.table_two_rows);
            EvCollect (mkCollector "model_inputs")
              (length (frames (Demo.ready Demo.fs_one_prediction)))
              Demo.table_two_rows None (Ctx 1)])).
Proof.
  apply (run_wrong_number_of_predictions (P := Demo.platform Demo.fs_one_prediction)
           Demo.request_two_rows Demo.table_two_rows Demo.one_prediction_model
           (mkCollector "model_inputs") (mkCollector "model_outputs")
           (mkCollector "model_inputs_outputs") (Ctx 1) [0.5%float]
           (Demo.ready Demo.fs_one_prediction)).
  - exists Demo.value_two_rows, Demo.rows_two_rows. split_and!; vm_compute; reflexivity.
  - vm_compute; reflexivity.
  - vm_compute; reflexivity.
  - reflexivity.
  - done.
  - done.
Defined.

(** The two-row request on a platform whose outputs channel rejects. *)
Lemma run_fails_when_an_emitter_raises_witness :
  run (P := Demo.platform_rejecting "model_outputs" Demo.fs_sum) Demo.request_two_rows
    (Demo.ready_rejecting "model_outputs" Demo.fs_sum)
  = (Raise (LibraryError "emission rejected"),
     mkWorld (environ (Demo.ready_rejecting "model_outputs" Demo.fs_sum))
       (globals (Demo.ready_rejecting "model_outputs" Demo.fs_sum))
       (frames (Demo.ready_rejecting "model_outputs" Demo.fs_sum)
        ++ [scored Demo.table_two_rows [3.0; 7.0]%float;
            prediction_view Demo.table_two_rows [3.0; 7.0]%float])
       (trace (Demo.ready_rejecting "model_outputs" Demo.fs_sum)
        ++ [EvPrint (PFrame Demo.table_two_rows);
            EvCollect (mkCollector "model_inputs")
              (length (frames (Demo.ready_rejecting "model_outputs" Demo.fs_sum)))
              Demo.table_two_rows None (Ctx 1)])).
Proof.
  apply (proj1 (proj2
           (run_fails_when_an_emitter_raises
              (P := Demo.platform_rejecting "model_outputs" Demo.fs_sum)
              Demo.request_two_rows Demo.table_two_rows Demo.sum_model
              (mkCollector "model_inputs") (mkCollector "model_outputs")
              (mkCollector "model_inputs_outputs") [3.0; 7.0]%float
              (LibraryError "emission rejected")
              (Demo.ready_rejecting "model_outputs" Demo.fs_sum)
              (ex_intro _ Demo.value_two_rows
                 (ex_intro _ Demo.rows_two_rows
                    (conj eq_refl (conj eq_refl eq_refl))))
              eq_refl eq_refl eq_refl))
           (Ctx 1)).
  - vm_compute; reflexivity.
  - vm_compute; reflexivity.
Defined.

(** A request of one column and no rows, and a model that answers with two
    predictions. *)
Lemma run_empty_table_takes_any_predictions_witness :
  ∃ w' first second ctx returned,
    run (P := Demo.platform Demo.fs_two_predictions) Demo.request_no_rows
      (Demo.ready Demo.fs_two_predictions)
    = (Ok [0.5; 1.5]%float, w')
    ∧ length [0.5; 1.5]%float ≠ nrows Demo.table_no_rows
    ∧ emissions (trace w') =
        emissions (trace (Demo.ready Demo.fs_two_predictions)) ++
          [first; second;
           mkEmission (mkCollector "model_inputs_outputs")
             (length (frames (Demo.ready Demo.fs_two_predictions)))
             (mkFrame (length [0.5; 1.5]%float)
                (set_column Predicted_Temperature (VFloat <$> [0.5; 1.5]%float)
                   ((λ c, (c.1, replicate (length [0.5; 1.5]%float) (VFloat nan)))
                      <$> columns Demo.table_no_rows)))
             (Some ctx) returned].
Proof.
  apply (run_empty_table_takes_any_predictions (P := Demo.platform Demo.fs_two_predictions)
           Demo.request_no_rows Demo.table_no_rows Demo.two_predictions_model
           (mkCollector "model_inputs") (mkCollector "model_outputs")
           (mkCollector "model_inputs_outputs") [0.5; 1.5]%float
           (Demo.ready Demo.fs_two_predictions)).
  - eexists _, _. split_and!; [vm_compute; reflexivity | reflexivity | vm_compute; reflexivity].
  - vm_compute; reflexivity.
  - reflexivity.
  - reflexivity.
  - done.
  - apply numbering_accepts.
Defined.

(** A start-up on a platform where the outputs emitter cannot be created:
    two names bound. *)
Lemma init_binds_in_order_witness :
  ∃ k,
    bound_in_order
      (globals (init (P := Demo.platform_refusing "model_outputs" Demo.fs_sum)
                  Demo.started).2) = Some k
    ∧ (k = 4 ↔ (init (P := Demo.platform_refusing "model_outputs" Demo.fs_sum)
                  Demo.started).1 = Ok tt).
Proof.
  apply (init_binds_in_order (P := Demo.platform_refusing "model_outputs" Demo.fs_sum)
           Demo.started).
  reflexivity.
Defined.

Lemma init_stops_at_the_emitter_that_fails_witness :
  init (P := Demo.platform_refusing "model_outputs" Demo.fs_sum) Demo.started
  = (Raise (LibraryError "no such channel"),
     mkWorld (environ Demo.started)
       (mkGlobals (Some Demo.sum_model) (Some (mkCollector "model_inputs"))
          (g_outputs_collector (globals Demo.started))
          (g_inputs_outputs_collector (globals Demo.started)))
       (frames Demo.started)
       (trace Demo.started ++ [EvLoadModel (os_path_join Demo.model_dir "model");
                               EvNewCollector "model_inputs"])).
Proof.
  apply (init_stops_at_the_emitter_that_fails
           (P := Demo.platform_refusing "model_outputs" Demo.fs_sum)
           Demo.started Demo.model_dir Demo.sum_model (LibraryError "no such channel")).
  - vm_compute; reflexivity.
  - vm_compute; reflexivity.
  - reflexivity.
  - reflexivity.
Defined.

(** The two-row request after that start-up. *)
Lemma run_in_a_partly_initialised_process_witness :
  run (P := Demo.platform_refusing "model_outputs" Demo.fs_sum) Demo.request_two_rows
    (Demo.after_init_refusing "model_outputs" Demo.fs_sum)
  = (Raise (NameError "outputs_collector"),
     mkWorld (environ (Demo.after_init_refusing "model_outputs" Demo.fs_sum))
       (globals (Demo.after_init_refusing "model_outputs" Demo.fs_sum))
       (frames (Demo.after_init_refusing "model_outputs" Demo.fs_sum)
        ++ [scored Demo.table_two_rows [3.0; 7.0]%float])
       (trace (Demo.after_init_refusing "model_outputs" Demo.fs_sum)
        ++ [EvPrint (PFrame Demo.table_two_rows);
            EvCollect (mkCollector "model_inputs")
              (length (frames (Demo.after_init_refusing "model_outputs" Demo.fs_sum)))
              Demo.table_two_rows None (Ctx 1)])).
Proof.
  apply (run_in_a_partly_initialised_process
           (P := Demo.platform_refusing "model_outputs" Demo.fs_sum)
           Demo.request_two_rows Demo.table_two_rows Demo.sum_model
           (mkCollector "model_inputs") None [3.0; 7.0]%float (Ctx 1)
           (Demo.after_init_refusing "model_outputs" Demo.fs_sum)).
  - exists Demo.value_two_rows, Demo.rows_two_rows. split_and!; vm_compute; reflexivity.
  - vm_compute; reflexivity.
  - vm_compute; reflexivity.
  - reflexivity.
  - reflexivity.
Defined.

Lemma init_again_witness :
  ∃ w1 w2,
    init (P := Demo.platform Demo.fs_sum) Demo.started = (Ok tt, w1)
    ∧ init (P := Demo.platform Demo.fs_sum) w1 = (Ok tt, w2)
    ∧ globals w2 = globals w1
    ∧ frames w2 = frames Demo.started
    ∧ loads_attempted (trace w2) =
        loads_attempted (trace Demo.started)
        ++ [os_path_join Demo.model_dir "model"; os_path_join Demo.model_dir "model"]
    ∧ collectors_created (trace w2) =
        collectors_created (trace Demo.started)
        ++ ["model_inputs"; "model_outputs"; "model_inputs_outputs";
            "model_inputs"; "model_outputs"; "model_inputs_outputs"].
Proof.
  apply (init_again (P := Demo.platform Demo.fs_sum) Demo.started Demo.model_dir
           Demo.sum_model).
  - vm_compute; reflexivity.
  - vm_compute; reflexivity.
  - reflexivity.
  - reflexivity.
  - reflexivity.
Defined.

Lemma init_then_run_witness :
  ∃ w1 w2,
    init (P := Demo.platform Demo.fs_sum) Demo.started = (Ok tt, w1)
    ∧ run (P := Demo.platform Demo.fs_sum) Demo.request_two_rows w1
      = (Ok [3.0; 7.0]%float, w2)
    ∧ (λ em, (name (emitter em), table_obj em, table em)) <$> emissions (trace w2)
      = ((λ em, (name (emitter em), table_obj em, table em))
           <$> emissions (trace Demo.started))
        ++ [("model_inputs", length (frames Demo.started), Demo.table_two_rows);
            ("model_outputs", S (length (frames Demo.started)),
             prediction_view Demo.table_two_rows [3.0; 7.0]%float);
            ("model_inputs_outputs", length (frames Demo.started),
             scored Demo.table_two_rows [3.0; 7.0]%float)]
    ∧ frames w2 !! length (frames Demo.started)
      = Some (scored Demo.table_two_rows [3.0; 7.0]%float)
    ∧ frames w2 !! S (length (frames Demo.started))
      = Some (prediction_view Demo.table_two_rows [3.0; 7.0]%float).
Proof.
  apply (init_then_run (P := Demo.platform Demo.fs_sum) Demo.started Demo.model_dir
           Demo.sum_model Demo.request_two_rows Demo.table_two_rows [3.0; 7.0]%float).
  - vm_compute; reflexivity.
  - vm_compute; reflexivity.
  - reflexivity.
  - reflexivity.
  - reflexivity.
  - exists Demo.value_two_rows, Demo.rows_two_rows. split_and!; vm_compute; reflexivity.
  - reflexivity.
  - reflexivity.
  - apply numbering_accepts.
Defined.
